(** * HumanNeuroRedcap: patient insertion over a REDCap project

    A shallow embedding of [src/ucsfndt/redcap/humandatabase/humanneuroredcap.py].

    The class talks to a remote records service, asks the system's random
    generator for numbers and emits warnings.  These effects are threaded
    through an explicit [world]: the generator is an oracle that answers one
    request after the other, every call made to the records service is
    appended to a log, and every warning is appended to a list.  Python
    exceptions are values of type [pyexc]; a computation either returns,
    raises, or (for the two [while] loops, which Python does not bound)
    exhausts the fuel it was given.

    The standard library is embedded where the class meets it, not below:
    the text built-ins ([str.lower], [int]) are those of ASCII text, an
    integer cell is one of a 64-bit column, and a request to the generator
    is one call of [SystemRandom._randbelow] or one [uuid4], whatever number
    of reads of the operating system's source it takes.  [PyStr.isascii],
    [mrn_in_domain], [id_in_domain] and [name_in_domain] name these limits
    for the properties that are stated within them. *)

From Stdlib Require Import ZArith NArith Ascii String List Lia.
From Stdlib Require Import Floats.SpecFloat.
From stdpp Require Import base option gmap strings list.

Local Open Scope string_scope.
Local Open Scope list_scope.

(** ** Python strings

    A [str] is modelled as a Rocq [string], that is, as ASCII text: the
    identifiers the module handles (record numbers, alphanumeric codes,
    hexadecimal digests) are ASCII, and the functions below are the ASCII
    part of their Python counterparts.  On text for which [isascii] holds
    they compute what Python computes; on other text (a name with an
    accented letter, a number followed by a no-break space) Python consults
    the Unicode database, which is not embedded. *)
Module PyStr.

Definition chars (s : string) : list ascii := list_ascii_of_string s.
Definition of_chars (l : list ascii) : string := string_of_list_ascii l.

Definition code (c : ascii) : N := N_of_ascii c.

Definition is_upper (c : ascii) : bool := ((65 <=? code c) && (code c <=? 90))%N.
Definition is_lower_hex (c : ascii) : bool := ((97 <=? code c) && (code c <=? 102))%N.
Definition is_digit (c : ascii) : bool := ((48 <=? code c) && (code c <=? 57))%N.

(** The ASCII characters [int()] skips around a literal: TAB, LF, VT, FF, CR
    and the space. *)
Definition is_space (c : ascii) : bool :=
  (((9 <=? code c) && (code c <=? 13)) || (code c =? 32))%N.

(** [str.isascii()]: every character is below 128. *)
Definition isascii (s : string) : bool :=
  forallb (fun c => (code c <? 128)%N) (chars s).

(** [str.lower()] of ASCII text: the letters A-Z are moved to a-z, nothing
    else changes. *)
Definition lower_char (c : ascii) : ascii :=
  if is_upper c then ascii_of_N (code c + 32) else c.

Definition lower (s : string) : string := of_chars (map lower_char (chars s)).

Fixpoint lstrip (l : list ascii) : list ascii :=
  match l with
  | c :: l' => if is_space c then lstrip l' else l
  | [] => []
  end.

Definition strip (l : list ascii) : list ascii := rev (lstrip (rev (lstrip l))).

(** [s[i]] for an index known to be in range; the default is never reached
    by the callers below, which reduce the index modulo the length. *)
Definition index (s : string) (i : nat) : ascii :=
  match String.get i s with
  | Some c => c
  | None => "000"%char
  end.

(** ["".join(...)] over single characters. *)
Definition join (l : list ascii) : string := of_chars l.

End PyStr.

(** ** Integer literals and integer formatting *)
Module PyInt.
Import PyStr.

Definition digit_val (c : ascii) : N := (code c - 48)%N.

(** The digit part of a base-10 literal accepted by [int(str)]: decimal
    digits, where single underscores may separate two digits. *)
Fixpoint parse_digits (l : list ascii) (acc : N) (after_digit : bool) : option N :=
  match l with
  | [] => if after_digit then Some acc else None
  | c :: l' =>
      if is_digit c then parse_digits l' (10 * acc + digit_val c)%N true
      else if (Ascii.eqb c "_"%char && after_digit)%bool then parse_digits l' acc false
      else None
  end.

(** The interpreter's default limit on the number of digits of a decimal
    literal ([sys.get_int_max_str_digits()]). *)
Definition max_str_digits : nat := 4300.

(** The magnitude of a literal: its digits, unless there are too many. *)
Definition magnitude (l : list ascii) : option N :=
  if (max_str_digits <? length (filter (fun c => Is_true (is_digit c)) l))%nat then None
  else parse_digits l 0%N false.

(** [int(s)] for a string [s] of ASCII text: surrounding blanks are dropped,
    one sign is allowed.  [None] stands for the [ValueError] Python
    raises. *)
Definition of_str (s : string) : option Z :=
  match strip (chars s) with
  | c :: l =>
      if Ascii.eqb c "-"%char then Z.opp <$> (Z.of_N <$> magnitude l)
      else if Ascii.eqb c "+"%char then Z.of_N <$> magnitude l
      else Z.of_N <$> magnitude (c :: l)
  | [] => None
  end.

(** [int(x)] for a finite float: truncation towards zero. *)
Definition trunc (neg : bool) (m : positive) (e : Z) : Z :=
  let a := Z.shiftl (Z.pos m) e in
  if neg then (- a)%Z else a.

Definition digit_chars : string := "0123456789abcdef".

Definition digit_char (d : N) : ascii := index digit_chars (N.to_nat d).

(** Digits of [n] in base [base], most significant first, pushed in front
    of [acc]. *)
Fixpoint render (base : N) (fuel : nat) (n : N) (acc : list ascii) : list ascii :=
  match fuel with
  | O => acc
  | S fuel' =>
      let acc' := digit_char (n mod base) :: acc in
      if (n / base =? 0)%N then acc' else render base fuel' (n / base)%N acc'
  end.

Definition digits (base n : N) : list ascii :=
  render base (S (N.to_nat (N.log2 n))) n [].

Definition zeros (k : nat) : list ascii := repeat "0"%char k.

(** The format specification [0{w}d]: sign-aware zero padding to a minimum
    width of [w] characters. *)
Definition format_0d (w : nat) (z : Z) : string :=
  let ds := digits 10 (Z.abs_N z) in
  let sign := if (z <? 0)%Z then ["-"%char] else [] in
  of_chars (sign ++ zeros (w - length sign - length ds) ++ ds).

(** The format ['%0{w}x' % n] for a non-negative [n]. *)
Definition format_0x (w : nat) (n : N) : string :=
  let ds := digits 16 n in
  of_chars (zeros (w - length ds) ++ ds).

End PyInt.

(** ** Values, exceptions and outcomes *)

(** The classes of the exceptions that occur.  [NonException] stands for the
    classes that derive from [BaseException] but not from [Exception]
    ([KeyboardInterrupt], [SystemExit], ...). *)
Inductive exc_class : Type :=
  | RuntimeError
  | ValueError
  | OverflowError
  | AttributeError
  | OtherException (name : string)
  | NonException (name : string).

Record pyexc : Type := PyExc { exc_type : exc_class; exc_msg : string }.

(** [isinstance(e, Exception)], the test of [except Exception]. *)
Definition isinstance_Exception (e : pyexc) : bool :=
  match exc_type e with
  | NonException _ => false
  | _ => true
  end.

Definition result (A : Type) : Type := pyexc + A.

(** A cell of the exported data frame: text, an integer (of a 64-bit
    integer column), or a float (the missing value is the float NaN). *)
Inductive cell : Type :=
  | CStr (s : string)
  | CInt (z : Z)
  | CFloat (f : spec_float).

Definition NaN : cell := CFloat S754_nan.

(** [isinstance(c, str)] *)
Definition is_str (c : cell) : bool :=
  match c with CStr _ => true | _ => false end.

(** [math.isnan(c)], called on cells that are not strings.  An integer is
    converted to a float first, which every integer of a 64-bit column
    allows. *)
Definition isnan (c : cell) : bool :=
  match c with CFloat S754_nan => true | _ => false end.

(** [int(c)] *)
Definition py_int (c : cell) : result Z :=
  match c with
  | CStr s =>
      match PyInt.of_str s with
      | Some z => inr z
      | None => inl (PyExc ValueError ("invalid literal for int() with base 10: '" +:+ s +:+ "'"))
      end
  | CInt z => inr z
  | CFloat (S754_zero _) => inr 0%Z
  | CFloat (S754_finite neg m e) => inr (PyInt.trunc neg m e)
  | CFloat (S754_infinity _) => inl (PyExc OverflowError "cannot convert float infinity to integer")
  | CFloat S754_nan => inl (PyExc ValueError "cannot convert float NaN to integer")
  end.

(** [c.lower()]: only text has the method. *)
Definition cell_lower (c : cell) : result string :=
  match c with
  | CStr s => inr (PyStr.lower s)
  | CInt _ => inl (PyExc AttributeError "'numpy.int64' object has no attribute 'lower'")
  | CFloat _ => inl (PyExc AttributeError "'float' object has no attribute 'lower'")
  end.

(** A value stored in a record dictionary. *)
Inductive pyval : Type :=
  | VStr (s : string)
  | VNone.

Definition of_optional (o : option string) : pyval :=
  match o with Some s => VStr s | None => VNone end.

(** One row of the export, with the columns the module reads. *)
Record row : Type := Row {
  row_mrn : cell;
  row_first_name : cell;
  row_last_name : cell;
  row_ucsf_id : cell;
  row_ucsf_guid : cell;
  row_nda_guid : cell
}.

(** ** The records service and the world *)

(** The calls the module makes to the REDCap project. *)
Inductive api_call : Type :=
  | ExportDataFrame (fields events : list string)
  | ImportRecords (batch : list (gmap string pyval))
  | ExportRecords (records : list string).

(** The project handle, described by how the remote side answers: the table
    the full export yields (or the exception it raises), and whether an
    import or a re-fetch raises. *)
Record Project : Type := {
  export_answer : result (list row);
  import_answer : list (gmap string pyval) -> option pyexc;
  refetch_answer : list string -> option pyexc
}.

Record world : Type := World {
  entropy : nat -> N;          (* the generator's answers, request by request *)
  drawn : nat;                 (* requests answered so far *)
  calls : list api_call;       (* requests sent to the records service *)
  warned : list string         (* messages passed to [warn] *)
}.

Inductive outcome (A : Type) : Type :=
  | Returned (a : A)
  | Raised (e : pyexc)
  | OutOfFuel.
Arguments Returned {A} a.
Arguments Raised {A} e.
Arguments OutOfFuel {A}.

Definition M (A : Type) : Type := world -> outcome A * world.

#[global] Instance M_ret : MRet M := fun A a w => (Returned a, w).

#[global] Instance M_bind : MBind M := fun A B k m w =>
  match m w with
  | (Returned a, w') => k a w'
  | (Raised e, w') => (Raised e, w')
  | (OutOfFuel, w') => (OutOfFuel, w')
  end.

Definition raise {A : Type} (e : pyexc) : M A := fun w => (Raised e, w).

Definition diverge {A : Type} : M A := fun w => (OutOfFuel, w).

Definition lift {A : Type} (r : result A) : M A :=
  match r with
  | inl e => raise e
  | inr a => mret a
  end.

(** [try: body  except Exception as e: handler e] *)
Definition try_except_Exception {A : Type} (body : M A) (handler : pyexc -> M A) : M A :=
  fun w =>
    match body w with
    | (Raised e, w') => if isinstance_Exception e then handler e w' else (Raised e, w')
    | r => r
    end.

(** [warnings.warn(msg)] under the default filters: the message is reported
    and execution goes on. *)
Definition warn (msg : string) : M unit :=
  fun w => (Returned tt, World (entropy w) (drawn w) (calls w) (warned w ++ [msg])).

Definition log_call (c : api_call) : M unit :=
  fun w => (Returned tt, World (entropy w) (drawn w) (calls w ++ [c]) (warned w)).

(** One request to the system's random generator. *)
Definition draw : M N :=
  fun w => (Returned (entropy w (drawn w)), World (entropy w) (S (drawn w)) (calls w) (warned w)).

(** [secrets.choice(seq)] for a non-empty [seq]: [seq[_randbelow(len(seq))]].
    The index [_randbelow] settles on, after as many reads of the operating
    system's source as it takes to find one in range, is the generator's
    answer to this request; it is below [len(seq)]. *)
Definition secrets_choice (seq : string) : M ascii :=
  r ← draw; mret (PyStr.index seq (N.to_nat (r mod N.of_nat (String.length seq)))).

(** [uuid.uuid4()]: sixteen random bytes, the generator's answer to one
    request, read as a big-endian integer, with the variant and version
    bits forced. *)
Definition uuid_int (bytes_int : N) (version : N) : N :=
  let i := N.ldiff bytes_int (N.shiftl 0xc000 48) in
  let i := N.lor i (N.shiftl 0x8000 48) in
  let i := N.ldiff i (N.shiftl 0xf000 64) in
  N.lor i (N.shiftl version 76).

Definition uuid4 : M N :=
  r ← draw; mret (uuid_int (r mod 2 ^ 128) 4).

(** The [hex] property of a UUID. *)
Definition uuid_hex (i : N) : string := PyInt.format_0x 32 i.

Definition export_records_df (db : Project) (fields events : list string) : M (list row) :=
  log_call (ExportDataFrame fields events);; lift (export_answer db).

Definition import_records (db : Project) (batch : list (gmap string pyval)) : M unit :=
  log_call (ImportRecords batch);;
  match import_answer db batch with
  | Some e => raise e
  | None => mret tt
  end.

Definition export_records (db : Project) (records : list string) : M unit :=
  log_call (ExportRecords records);;
  match refetch_answer db records with
  | Some e => raise e
  | None => mret tt
  end.

(** ** The class [HumanNeuroRedcap] *)

(** The instance state the modelled methods read: the project handle, [None]
    until [connect] has run. *)
Record HumanNeuroRedcap : Type := {
  database : option Project
}.

(** [valid_id_chars = string.ascii_uppercase + string.digits] *)
Definition valid_id_chars : string := "ABCDEFGHIJKLMNOPQRSTUVWXYZ" +:+ "0123456789".

Definition export_fields : list string :=
  ["record_id"; "ucsf_id"; "ucsf_guid"; "nda_guid"; "mrn"; "first_name"; "last_name"].

Definition export_events : list string := ["demographics_arm_1"; "general_phi_arm_1"].

(** ["".join(secrets.choice(self.valid_id_chars) for _ in range(4))] *)
Definition random_short_id : M string :=
  c0 ← secrets_choice valid_id_chars;
  c1 ← secrets_choice valid_id_chars;
  c2 ← secrets_choice valid_id_chars;
  c3 ← secrets_choice valid_id_chars;
  mret (PyStr.join [c0; c1; c2; c3]).

(** [str(uuid.uuid4().hex)] *)
Definition random_guid : M string :=
  u ← uuid4; mret (uuid_hex u).

Definition create_ucsf_id (self : HumanNeuroRedcap) : M (string * string) :=
  short ← random_short_id;
  guid ← random_guid;
  mret (short, guid).

(** The four local collections [add_patient] fills from the export. *)
Record index : Type := Index {
  patient_info : gmap string (cell * cell);
  ucsf_ids : gset string;
  ucsf_guids : gset string;
  nda_guids : gset string
}.

Definition empty_index : index := Index ∅ ∅ ∅ ∅.

(** The part of the loop body that handles the [mrn] column. *)
Definition index_mrn (r : row) (info : gmap string (cell * cell)) : result (gmap string (cell * cell)) :=
  let m := row_mrn r in
  if is_str m || negb (isnan m) then
    match py_int m with
    | inl e => inl e
    | inr z => inr (<[PyInt.format_0d 8 z := (row_first_name r, row_last_name r)]> info)
    end
  else inr info.

(** The part of the loop body shared by the three identifier columns, which
    differ in the width [w] of the zero padding. *)
Definition index_id (w : nat) (c : cell) (ids : gset string) : result (gset string) :=
  match c with
  | CStr s => inr ({[s]} ∪ ids)
  | _ =>
      if negb (isnan c) then
        match py_int c with
        | inl e => inl e
        | inr z => inr ({[PyInt.format_0d w z]} ∪ ids)
        end
      else inr ids
  end.

(** One iteration of [for row in records.iterrows()]. *)
Definition index_row (r : row) (ix : index) : result index :=
  match index_mrn r (patient_info ix) with
  | inl e => inl e
  | inr info =>
      match index_id 4 (row_ucsf_id r) (ucsf_ids ix) with
      | inl e => inl e
      | inr ids =>
          match index_id 32 (row_ucsf_guid r) (ucsf_guids ix) with
          | inl e => inl e
          | inr guids =>
              match index_id 32 (row_nda_guid r) (nda_guids ix) with
              | inl e => inl e
              | inr ndas => inr (Index info ids guids ndas)
              end
          end
      end
  end.

Fixpoint index_rows (records : list row) (ix : index) : result index :=
  match records with
  | [] => inr ix
  | r :: records' =>
      match index_row r ix with
      | inl e => inl e
      | inr ix' => index_rows records' ix'
      end
  end.

(** [first_name.lower() == p_info[0].lower() and last_name.lower() == p_info[1].lower()],
    the second comparison being evaluated only when the first holds. *)
Definition names_match (first_name last_name : string) (p_info : cell * cell) : result bool :=
  match cell_lower (fst p_info) with
  | inl e => inl e
  | inr stored_first =>
      if String.eqb (PyStr.lower first_name) stored_first then
        match cell_lower (snd p_info) with
        | inl e => inl e
        | inr stored_last => inr (String.eqb (PyStr.lower last_name) stored_last)
        end
      else inr false
  end.

(** [while x in existing: x = gen()], each iteration using one unit of fuel. *)
Fixpoint while_in (fuel : nat) (gen : M string) (existing : gset string) (x : string) : M string :=
  if decide (x ∈ existing) then
    match fuel with
    | O => diverge
    | S fuel' => x' ← gen; while_in fuel' gen existing x'
    end
  else mret x.

(** [x = gen()] followed by the loop above. *)
Definition allocate (fuel : nat) (gen : M string) (existing : gset string) : M string :=
  x ← gen; while_in fuel gen existing x.

Definition record_phi (ucsf_id mrn first_name last_name : string) : gmap string pyval :=
  <["record_id" := VStr ucsf_id]> (
  <["redcap_event_name" := VStr "general_phi_arm_1"]> (
  <["mrn" := VStr mrn]> (
  <["first_name" := VStr first_name]> (
  <["last_name" := VStr last_name]> ∅)))).

Definition record_info (ucsf_id ucsf_guid : string) (nda_guid : option string) : gmap string pyval :=
  <["record_id" := VStr ucsf_id]> (
  <["redcap_event_name" := VStr "demographics_arm_1"]> (
  <["ucsf_id" := VStr ucsf_id]> (
  <["ucsf_guid" := VStr ucsf_guid]> (
  <["nda_guid" := of_optional nda_guid]> ∅)))).

(** [if x is None: x = gen(); while x in existing: x = gen()]; a supplied
    value is kept as it is. *)
Definition choose (fuel : nat) (gen : M string) (existing : gset string)
    (supplied : option string) : M string :=
  match supplied with
  | None => allocate fuel gen existing
  | Some x => mret x
  end.

(** Lines 133-152: what [add_patient] does once the duplicate check has let
    the call through. *)
Definition insert_patient (db : Project) (fuel : nat) (ix : index)
    (mrn first_name last_name : string) (ucsf_id ucsf_guid nda_guid : option string)
    : M (option (string * string)) :=
  ucsf_id ← choose fuel random_short_id (ucsf_ids ix) ucsf_id;
  ucsf_guid ← choose fuel random_guid (ucsf_guids ix) ucsf_guid;
  import_records db [record_phi ucsf_id mrn first_name last_name;
                     record_info ucsf_id ucsf_guid nda_guid];;
  try_except_Exception
    (export_records db [ucsf_id])
    (fun e => warn ("Failed to add patient " +:+ mrn +:+ " to database: " +:+ exc_msg e));;
  mret (Some (ucsf_id, ucsf_guid)).

(** Lines 126-131: the duplicate check, then the insertion.  The bare
    [return] yields [None]. *)
Definition check_and_insert (db : Project) (fuel : nat) (ix : index)
    (mrn first_name last_name : string) (ucsf_id ucsf_guid nda_guid : option string)
    : M (option (string * string)) :=
  match patient_info ix !! mrn with
  | Some p_info =>
      same ← lift (names_match first_name last_name p_info);
      if same : bool then
        warn ("MRN " +:+ mrn +:+ " already exists in database.");; mret None
      else
        raise (PyExc ValueError ("MRN " +:+ mrn +:+ " already exists in database with different name."))
  | None =>
      insert_patient db fuel ix mrn first_name last_name ucsf_id ucsf_guid nda_guid
  end.

Definition add_patient (self : HumanNeuroRedcap) (fuel : nat)
    (mrn first_name last_name : string) (ucsf_id ucsf_guid nda_guid : option string)
    : M (option (string * string)) :=
  match database self with
  | None => raise (PyExc RuntimeError "Database not connected.")
  | Some db =>
      records ← export_records_df db export_fields export_events;
      ix ← lift (index_rows records empty_index);
      check_and_insert db fuel ix mrn first_name last_name ucsf_id ucsf_guid nda_guid
  end.

(** The body is [pass]: the call yields [None]. *)
Definition ucsf_id_lookup (self : HumanNeuroRedcap) (id_ id_type : string) : M (option string) :=
  mret None.

(** ** Vocabulary of the specification *)

(** A character of the alphabet A-Z, 0-9. *)
Definition id_char (c : ascii) : bool := PyStr.is_upper c || PyStr.is_digit c.

(** A lowercase hexadecimal character. *)
Definition hex_char (c : ascii) : bool := PyStr.is_digit c || PyStr.is_lower_hex c.

(** A short ID: four characters, each an uppercase letter or a digit. *)
Definition is_short_id (s : string) : bool :=
  Nat.eqb (String.length s) 4 && forallb id_char (PyStr.chars s).

(** A GUID: thirty-two lowercase hexadecimal characters. *)
Definition is_hex_guid (s : string) : bool :=
  Nat.eqb (String.length s) 32 && forallb hex_char (PyStr.chars s).

(** The world after [k] further requests to the generator. *)
Definition skip (k : nat) (w : world) : world :=
  World (entropy w) (k + drawn w) (calls w) (warned w).

(** The world after one more request to the records service. *)
Definition logged (c : api_call) (w : world) : world :=
  World (entropy w) (drawn w) (calls w ++ [c]) (warned w).

(** The world after one more warning. *)
Definition warning (msg : string) (w : world) : world :=
  World (entropy w) (drawn w) (calls w) (warned w ++ [msg]).

(** The character the [i]-th pending request selects from the alphabet. *)
Definition candidate_char (w : world) (i : nat) : ascii :=
  PyStr.index valid_id_chars
    (N.to_nat (entropy w (i + drawn w) mod N.of_nat (String.length valid_id_chars))).

(** The values the next pending requests generate. *)
Definition short_candidate (w : world) : string :=
  PyStr.join [candidate_char w 0; candidate_char w 1; candidate_char w 2; candidate_char w 3].

Definition guid_candidate (w : world) : string :=
  uuid_hex (uuid_int (entropy w (drawn w) mod 2 ^ 128) 4).

(** The world in which the second identifier is chosen: four requests
    later when the short ID had to be generated. *)
Definition after_short (supplied : option string) (w : world) : world :=
  match supplied with
  | None => skip 4 w
  | Some _ => w
  end.

(** A generator that replays a finite list of answers. *)
Definition replay (l : list N) : nat -> N := fun i => nth i l 0%N.

(** The message of the warning that reports a failed re-fetch. *)
Definition failure_warning (mrn : string) (e : pyexc) : string :=
  "Failed to add patient " +:+ mrn +:+ " to database: " +:+ exc_msg e.

(** The message of the warning that reports a benign duplicate. *)
Definition duplicate_warning (mrn : string) : string :=
  "MRN " +:+ mrn +:+ " already exists in database.".

(** The [ValueError] of a conflicting duplicate. *)
Definition conflict_error (mrn : string) : pyexc :=
  PyExc ValueError ("MRN " +:+ mrn +:+ " already exists in database with different name.").

(** The key under which the loop files a row, when it files it. *)
Definition mrn_key (r : row) : option string :=
  if is_str (row_mrn r) || negb (isnan (row_mrn r)) then
    match py_int (row_mrn r) with
    | inr z => Some (PyInt.format_0d 8 z)
    | inl _ => None
    end
  else None.

(** The number a list of decimal digits denotes. *)
Definition decimal_value (l : list ascii) : N :=
  fold_left (fun a c => (10 * a + PyInt.digit_val c)%N) l 0%N.

(** Text made of decimal digits only. *)
Definition all_digits (s : string) : bool := forallb PyStr.is_digit (PyStr.chars s).

(** The first request of every call: the full export. *)
Definition full_export : api_call := ExportDataFrame export_fields export_events.

(** ** Sample exports, projects and worlds *)
Module Sample.

(** A PHI-event row: the [mrn] column reads 1234.0, the identifier columns
    are missing. *)
Definition jane_phi : row :=
  Row (CFloat (S754_finite false (1234 * 2 ^ 42) (-42))) (CStr "Jane") (CStr "Doe") NaN NaN NaN.

(** Demographics-event rows: identifiers only. *)
Definition jane_demographics : row :=
  Row NaN NaN NaN (CStr "AB12") (CStr "0123456789abcdef4123856789abcdef") (CStr "NDAR_INV0001").

Definition other_demographics : row :=
  Row NaN NaN NaN (CStr "CD34") (CStr "00000000000040008000000000000007") NaN.

Definition table : list row := [jane_phi; jane_demographics; other_demographics].

(** A row whose [mrn] cell is text without padding. *)
Definition text_mrn : row :=
  Row (CStr "1234") (CStr "Jane") (CStr "Doe") NaN NaN NaN.

(** A project that accepts every import and every re-fetch. *)
Definition accepting (t : list row) : Project :=
  {| export_answer := inr t;
     import_answer := fun _ => None;
     refetch_answer := fun _ => None |}.

(** A project whose re-fetch raises [e]. *)
Definition unverifiable (t : list row) (e : pyexc) : Project :=
  {| export_answer := inr t;
     import_answer := fun _ => None;
     refetch_answer := fun _ => Some e |}.

Definition connected_to (db : Project) : HumanNeuroRedcap := {| database := Some db |}.

(** The index the loop builds from a table it accepts. *)
Definition index_of (t : list row) : index :=
  match index_rows t empty_index with
  | inr ix => ix
  | inl _ => empty_index
  end.

(** A world with nothing sent or warned yet, whose generator replays the
    given answers. *)
Definition start (draws : list N) : world := World (replay draws) 0 [] [].

(** Answers that select AB12, then CD34, then EF56 from the alphabet, then
    two answers of sixteen bytes. *)
Definition colliding_draws : list N :=
  [0; 1; 27; 28; 2; 3; 29; 30; 4; 5; 31; 32; 7; 2 ^ 128 - 1]%N.

Definition timeout : pyexc := PyExc (OtherException "ConnectionError") "timed out".

End Sample.

(** ** Connection management: [construct], [load_credentials], [connect]

    These methods read a TOML key file and build the project handle.  The
    file system and the third-party constructor [Project(url, token)] are
    described by a [host]: what [open] followed by [tomllib.load] yields for a
    path, and what the constructor yields for a pair of credentials.  Every
    file opened and every handle requested is logged. *)

(** A [pathlib.Path]: made from a string, or the file of a given name beside
    the module ([Path(__file__).parent.joinpath(name)]). *)
Inductive path : Type :=
  | PathOf (s : string)
  | BesideModule (name : string).

Definition DEFAULT_KEY_FILE : path := BesideModule "redcap_key.toml".

(** A value of a parsed TOML document. *)
#[local] Unset Elimination Schemes.
Inductive toml : Type :=
  | TString (s : string)
  | TInteger (z : Z)
  | TFloat (f : spec_float)
  | TBoolean (b : bool)
  | TDatetime (text : string)
  | TArray (items : list toml)
  | TTable (entries : list (string * toml)).
#[local] Set Elimination Schemes.

(** What a caller may pass as [config_file]: [None], a [str], a [Path], or a
    value of another type, of which the type's name is kept. *)
Inductive config_arg : Type :=
  | ConfigNone
  | ConfigStr (s : string)
  | ConfigPath (p : path)
  | ConfigOther (type_name : string).

Record host : Type := {
  read_toml : path -> result (gmap string toml);
  new_project : toml -> toml -> result Project
}.

Inductive host_call : Type :=
  | OpenFile (p : path)
  | NewProject (url token : toml).

(** The attributes of an instance: the key file, and the part the methods
    above read. *)
Record instance : Type := Instance {
  key_file : path;
  fields : HumanNeuroRedcap
}.

Record session : Type := Session {
  this : instance;
  host_calls : list host_call
}.

Definition Conn (A : Type) : Type := session -> outcome A * session.

#[global] Instance Conn_ret : MRet Conn := fun A a st => (Returned a, st).

#[global] Instance Conn_bind : MBind Conn := fun A B k m st =>
  match m st with
  | (Returned a, st') => k a st'
  | (Raised e, st') => (Raised e, st')
  | (OutOfFuel, st') => (OutOfFuel, st')
  end.

Definition conn_raise {A : Type} (e : pyexc) : Conn A := fun st => (Raised e, st).

Definition conn_lift {A : Type} (r : result A) : Conn A :=
  match r with
  | inl e => conn_raise e
  | inr a => mret a
  end.

Definition log_host (c : host_call) : Conn unit :=
  fun st => (Returned tt, Session (this st) (host_calls st ++ [c])).

Definition get_key_file : Conn path := fun st => (Returned (key_file (this st)), st).

(** [self.key_file = p] *)
Definition set_key_file (p : path) : Conn unit :=
  fun st => (Returned tt, Session (Instance p (fields (this st))) (host_calls st)).

(** [self.database = db] *)
Definition set_database (db : Project) : Conn unit :=
  fun st => (Returned tt,
             Session (Instance (key_file (this st)) {| database := Some db |}) (host_calls st)).

(** [KeyError(key)], whose text is the key between quotes. *)
Definition KeyError (key : string) : pyexc :=
  PyExc (OtherException "KeyError") ("'" +:+ key +:+ "'").

(** [credentials[key]] *)
Definition getitem (credentials : gmap string toml) (key : string) : Conn toml :=
  match credentials !! key with
  | Some v => mret v
  | None => conn_raise (KeyError key)
  end.

Definition load_credentials (h : host) : Conn (toml * toml) :=
  p ← get_key_file;
  log_host (OpenFile p);;
  credentials ← conn_lift (read_toml h p);
  url ← getitem credentials "url";
  token ← getitem credentials "token";
  mret (url, token).

Definition connect (h : host) (url token : option string) : Conn unit :=
  args ← match url, token with
         | Some u, Some t => mret (TString u, TString t)
         | _, _ =>
             credentials ← load_credentials h;
             mret (from_option TString credentials.1 url,
                   from_option TString credentials.2 token)
         end;
  log_host (NewProject args.1 args.2);;
  db ← conn_lift (new_project h args.1 args.2);
  set_database db.

Definition construct (h : host) (config_file : config_arg) (connect_ : bool) : Conn unit :=
  match config_file with
  | ConfigNone => mret tt
  | ConfigStr s => set_key_file (PathOf s)
  | ConfigPath p => set_key_file p
  | ConfigOther type_name =>
      conn_raise (PyExc ValueError ("Invalid config_file type: <class '" +:+ type_name +:+ "'>"))
  end;;
  if connect_ then connect h None None else mret tt.

(** A new object before [__init__] has run: the class-level defaults. *)
Definition class_defaults : instance := Instance DEFAULT_KEY_FILE {| database := None |}.

(** [HumanNeuroRedcap(config_file, connect)] *)
Definition init (h : host) (config_file : config_arg) (connect_ : bool)
    : outcome unit * session :=
  construct h config_file connect_ (Session class_defaults []).

(** ** Vocabulary for the connection properties *)

(** The session after the key file has been opened. *)
Definition opened (st : session) : session :=
  Session (this st) (host_calls st ++ [OpenFile (key_file (this st))]).

(** The session after a handle has been requested for [url] and [token],
    with the outcome of the request. *)
Definition built (h : host) (url token : toml) (st : session) : outcome unit * session :=
  match new_project h url token with
  | inl e => (Raised e, Session (this st) (host_calls st ++ [NewProject url token]))
  | inr db =>
      (Returned tt,
       Session (Instance (key_file (this st)) {| database := Some db |})
         (host_calls st ++ [NewProject url token]))
  end.

(** The key file [construct] settles on, when the argument has a valid type. *)
Definition chosen_key_file (config_file : config_arg) (current : path) : option path :=
  match config_file with
  | ConfigNone => Some current
  | ConfigStr s => Some (PathOf s)
  | ConfigPath p => Some p
  | ConfigOther _ => None
  end.

(** The error [construct] raises for an argument of another type. *)
Definition invalid_config (type_name : string) : pyexc :=
  PyExc ValueError ("Invalid config_file type: <class '" +:+ type_name +:+ "'>").

(** The error [add_patient] raises on an instance without a handle. *)
Definition not_connected : pyexc := PyExc RuntimeError "Database not connected.".

(** ** Vocabulary for the indexing properties *)

(** An [mrn] cell the loop can file or skip: text must read as an integer,
    a float must not be infinite. *)
Definition mrn_accepted (c : cell) : bool :=
  match c with
  | CStr s => match PyInt.of_str s with Some _ => true | None => false end
  | CFloat (S754_infinity _) => false
  | _ => true
  end.

(** An identifier cell the loop can collect or skip: anything but an
    infinite float. *)
Definition id_accepted (c : cell) : bool :=
  match c with
  | CFloat (S754_infinity _) => false
  | _ => true
  end.

Definition row_accepted (r : row) : bool :=
  mrn_accepted (row_mrn r) && id_accepted (row_ucsf_id r)
  && id_accepted (row_ucsf_guid r) && id_accepted (row_nda_guid r).

(** The string an identifier cell adds to its set, for the padding width
    [w] of its column: text as it is, a number reformatted. *)
Definition id_key (w : nat) (c : cell) : option string :=
  match c with
  | CStr s => Some s
  | CInt z => Some (PyInt.format_0d w z)
  | CFloat (S754_zero _) => Some (PyInt.format_0d w 0)
  | CFloat (S754_finite neg m e) => Some (PyInt.format_0d w (PyInt.trunc neg m e))
  | CFloat _ => None
  end.

(** ** The cells and names the embedding reads as Python does *)

(** [sys.float_info.max], the largest finite float: [math.isnan] converts
    an integer up to it without overflow. *)
Definition float_max : Z := (2 ^ 1024 - 2 ^ 971)%Z.

(** An [mrn] cell: ASCII text, an integer a float can hold (as every
    integer of a 64-bit column is), any float. *)
Definition mrn_in_domain (c : cell) : bool :=
  match c with
  | CStr s => PyStr.isascii s
  | CInt z => (Z.abs z <=? float_max)%Z
  | CFloat _ => true
  end.

(** An identifier cell: text is collected as it is, whatever its
    characters; an integer must be one a float can hold. *)
Definition id_in_domain (c : cell) : bool :=
  match c with
  | CInt z => (Z.abs z <=? float_max)%Z
  | _ => true
  end.

Definition row_in_domain (r : row) : bool :=
  mrn_in_domain (row_mrn r) && id_in_domain (row_ucsf_id r)
  && id_in_domain (row_ucsf_guid r) && id_in_domain (row_nda_guid r).

(** A stored name: ASCII text, or a cell that is not text (and so has no
    [lower] at all). *)
Definition name_in_domain (c : cell) : bool :=
  match c with
  | CStr s => PyStr.isascii s
  | _ => true
  end.


(** ** Vocabulary for the request protocol *)

(** The requests one call of [add_patient] can have sent, with the outcome
    each sequence goes with: the sequences are the prefixes of export,
    import, re-fetch. *)
Inductive protocol (mrn first_name last_name : string) (nda_guid : option string)
    : outcome (option (string * string)) -> list api_call -> Prop :=
  | refused_before_export :
      protocol mrn first_name last_name nda_guid (Raised not_connected) []
  | stopped_after_export o :
      (forall p, o <> Returned (Some p)) ->
      protocol mrn first_name last_name nda_guid o [full_export]
  | stopped_after_import sid g e :
      protocol mrn first_name last_name nda_guid (Raised e)
        [full_export;
         ImportRecords [record_phi sid mrn first_name last_name; record_info sid g nda_guid]]
  | interrupted_in_refetch sid g e :
      isinstance_Exception e = false ->
      protocol mrn first_name last_name nda_guid (Raised e)
        [full_export;
         ImportRecords [record_phi sid mrn first_name last_name; record_info sid g nda_guid];
         ExportRecords [sid]]
  | completed sid g :
      protocol mrn first_name last_name nda_guid (Returned (Some (sid, g)))
        [full_export;
         ImportRecords [record_phi sid mrn first_name last_name; record_info sid g nda_guid];
         ExportRecords [sid]].

(** ** Vocabulary for the generator properties *)

(** The position of a character of the alphabet A-Z, 0-9 in
    [valid_id_chars]. *)
Definition alphabet_index (c : ascii) : N :=
  if PyStr.is_upper c then (PyStr.code c - 65)%N else (PyStr.code c - 48 + 26)%N.

(** The answers that make [random_short_id] spell a given text. *)
Definition spelling (s : string) : list N := map alphabet_index (PyStr.chars s).

(** ** Sample hosts and further sample exports *)
Module Site.

Definition credentials : gmap string toml :=
  <["url" := TString "https://redcap.example.org/api/"]> (
  <["token" := TString "0123456789ABCDEF0123456789ABCDEF"]> ∅).

(** A key file that holds the token only. *)
Definition token_only : gmap string toml :=
  <["token" := TString "0123456789ABCDEF0123456789ABCDEF"]> ∅.

Definition no_such_file : pyexc :=
  PyExc (OtherException "FileNotFoundError") "No such file or directory".

Definition bad_credentials : pyexc :=
  PyExc (OtherException "AssertionError") "Incorrect url or token format".

(** The files of the host: the default key file and [lab.toml] hold both
    keys, [token_only.toml] holds one, nothing else exists. *)
Definition read (p : path) : result (gmap string toml) :=
  match p with
  | BesideModule name =>
      if String.eqb name "redcap_key.toml" then inr credentials else inl no_such_file
  | PathOf s =>
      if String.eqb s "lab.toml" then inr credentials
      else if String.eqb s "token_only.toml" then inr token_only
      else inl no_such_file
  end.

(** The constructor accepts two strings and hands out a project that holds
    the sample table. *)
Definition build (url token : toml) : result Project :=
  match url, token with
  | TString _, TString _ => inr (Sample.accepting Sample.table)
  | _, _ => inl bad_credentials
  end.

Definition local : host := {| read_toml := read; new_project := build |}.

(** An instance that has a key file and no handle, before any host call. *)
Definition unconnected (p : path) : session :=
  Session (Instance p {| database := None |}) [].

End Site.

Module Cases.

(** A second PHI row for record number 1234, under another last name. *)
Definition jane_renamed : row :=
  Row (CInt 1234) (CStr "Jane") (CStr "Roe") NaN NaN NaN.

(** A PHI row whose record number is not a number. *)
Definition unreadable : row :=
  Row (CStr "MRN-7") (CStr "Ann") (CStr "Lee") NaN NaN NaN.

(** A PHI row without names. *)
Definition nameless : row :=
  Row (CInt 77) NaN NaN NaN NaN NaN.

(** A demographics row whose short ID 0012 came back as the number 12. *)
Definition numeric_id : row :=
  Row NaN NaN NaN (CInt 12) NaN NaN.

(** A project that refuses every import. *)
Definition refusing (t : list row) (e : pyexc) : Project :=
  {| export_answer := inr t;
     import_answer := fun _ => Some e;
     refetch_answer := fun _ => None |}.

Definition forbidden : pyexc := PyExc (OtherException "RedcapError") "forbidden".

Definition interrupt : pyexc := PyExc (NonException "KeyboardInterrupt") "".

(** A generator that always answers zero: every short ID drawn is AAAA. *)
Definition stuck : world := World (fun _ => 0%N) 0 [] [].

(** A demographics row that holds the short ID AAAA. *)
Definition holds_AAAA : row :=
  Row NaN NaN NaN (CStr "AAAA") NaN NaN.

End Cases.

(** * Properties *)

(** ** Sanity checks of the formatting and parsing primitives *)

Example format_0d_small : PyInt.format_0d 8 1234 = "00001234".
Proof. reflexivity. Qed.

Example format_0d_negative : PyInt.format_0d 8 (-1234) = "-0001234".
Proof. reflexivity. Qed.

Example format_0d_wide : PyInt.format_0d 4 1234567 = "1234567".
Proof. reflexivity. Qed.

Example format_0x_small : PyInt.format_0x 32 255 = "000000000000000000000000000000ff".
Proof. reflexivity. Qed.

Example of_str_padded : PyInt.of_str "00001234" = Some 1234%Z.
Proof. reflexivity. Qed.

Example of_str_blank_sign : PyInt.of_str " -1_000 " = Some (-1000)%Z.
Proof. reflexivity. Qed.

Example lower_mixed : PyStr.lower "Jane DOE-3" = "jane doe-3".
Proof. reflexivity. Qed.

Example uuid_hex_version_and_variant :
  uuid_hex (uuid_int 0 4) = "00000000000040008000000000000000" /\
  uuid_hex (uuid_int (2 ^ 128 - 1) 4) = "ffffffffffff4fffbfffffffffffffff".
Proof. split; reflexivity. Qed.

Example of_str_rejects : PyInt.of_str "12a" = None /\ PyInt.of_str "1__0" = None /\ PyInt.of_str "" = None.
Proof. repeat split. Qed.

(** ** The monad and the allocation loop *)

Section Monad.
Context {A B : Type}.

Lemma bind_returned (m : M A) (k : A -> M B) w a w' :
  m w = (Returned a, w') -> (m ≫= k) w = k a w'.
Proof. intros H. unfold mbind, M_bind. now rewrite H. Qed.

Lemma bind_raised (m : M A) (k : A -> M B) w e w' :
  m w = (Raised e, w') -> (m ≫= k) w = (Raised e, w').
Proof. intros H. unfold mbind, M_bind. now rewrite H. Qed.

Lemma bind_inv_returned (m : M A) (k : A -> M B) w b w' :
  (m ≫= k) w = (Returned b, w') ->
  exists a w1, m w = (Returned a, w1) /\ k a w1 = (Returned b, w').
Proof.
  unfold mbind, M_bind. destruct (m w) as [[a|e|] w1]; intros H; try discriminate.
  now exists a, w1.
Qed.
End Monad.

Lemma random_short_id_eq w :
  random_short_id w = (Returned (short_candidate w), skip 4 w).
Proof. reflexivity. Qed.

Lemma random_guid_eq w :
  random_guid w = (Returned (guid_candidate w), skip 1 w).
Proof. reflexivity. Qed.

Section Allocation.
Variable gen : M string.
Variable existing : gset string.

Lemma while_in_fresh fuel x w :
  x ∉ existing -> while_in fuel gen existing x w = (Returned x, w).
Proof.
  intros Hx. destruct fuel; simpl; destruct (decide (x ∈ existing)); done.
Qed.

Lemma while_in_returned fuel : forall x w y w',
  while_in fuel gen existing x w = (Returned y, w') -> y ∉ existing.
Proof.
  induction fuel as [|fuel IH]; intros x w y w'; simpl;
    destruct (decide (x ∈ existing)) as [Hin|Hout].
  - discriminate.
  - intros [= <- <-]. exact Hout.
  - intros H. apply bind_inv_returned in H as (x' & w1 & _ & H). eauto.
  - intros [= <- <-]. exact Hout.
Qed.

Lemma allocate_fresh fuel w x w' :
  gen w = (Returned x, w') -> x ∉ existing ->
  allocate fuel gen existing w = (Returned x, w').
Proof.
  intros Hg Hx. unfold allocate. rewrite (bind_returned _ _ _ _ _ Hg).
  now apply while_in_fresh.
Qed.

Lemma allocate_returned fuel w y w' :
  allocate fuel gen existing w = (Returned y, w') -> y ∉ existing.
Proof.
  unfold allocate. intros H. apply bind_inv_returned in H as (x & w1 & _ & H).
  eapply while_in_returned; eauto.
Qed.

Lemma choose_supplied fuel x w :
  choose fuel gen existing (Some x) w = (Returned x, w).
Proof. reflexivity. Qed.

Lemma choose_returned fuel w y w' :
  choose fuel gen existing None w = (Returned y, w') -> y ∉ existing.
Proof. apply allocate_returned. Qed.
End Allocation.

(** ** Termination of the allocation loop *)

Lemma skip_0 w : skip 0 w = w.
Proof. now destruct w. Qed.

Lemma skip_skip a b w : skip a (skip b w) = skip (a + b) w.
Proof. unfold skip. simpl. f_equal. lia. Qed.

Section Termination.
Variable gen : M string.
Variable candidate : world -> string.
Variable step : nat.
Variable existing : gset string.
Hypothesis gen_eq : forall w, gen w = (Returned (candidate w), skip step w).

(** If the first [n] candidates are taken and the next one is free, [n]
    units of fuel are enough for the loop to return that one. *)
Lemma while_in_terminates n : forall fuel w,
  (n <= fuel)%nat ->
  (forall j, (j < n)%nat -> candidate (skip (j * step) w) ∈ existing) ->
  candidate (skip (n * step) w) ∉ existing ->
  while_in fuel gen existing (candidate w) (skip step w)
  = (Returned (candidate (skip (n * step) w)), skip (S n * step) w).
Proof.
  induction n as [|n IH]; intros fuel w Hfuel Htaken Hfree.
  - simpl in *. rewrite skip_0 in Hfree. rewrite skip_0, Nat.add_0_r.
    now apply while_in_fresh.
  - destruct fuel as [|fuel]; [lia|].
    pose proof (Htaken 0%nat (Nat.lt_0_succ n)) as H0. simpl in H0. rewrite skip_0 in H0.
    simpl. destruct (decide (candidate w ∈ existing)) as [_|Hno]; [|contradiction].
    rewrite (bind_returned _ _ _ _ _ (gen_eq (skip step w))).
    rewrite (IH fuel (skip step w)).
    + rewrite !skip_skip.
      replace (n * step + step)%nat with (S n * step)%nat by lia.
      replace (S n * step + step)%nat with (S (S n) * step)%nat by lia.
      reflexivity.
    + lia.
    + intros j Hj. rewrite skip_skip.
      replace (j * step + step)%nat with (S j * step)%nat by lia.
      apply Htaken. lia.
    + rewrite skip_skip.
      replace (n * step + step)%nat with (S n * step)%nat by lia.
      exact Hfree.
Qed.

Lemma allocate_terminates n fuel w :
  (n <= fuel)%nat ->
  (forall j, (j < n)%nat -> candidate (skip (j * step) w) ∈ existing) ->
  candidate (skip (n * step) w) ∉ existing ->
  allocate fuel gen existing w
  = (Returned (candidate (skip (n * step) w)), skip (S n * step) w).
Proof.
  intros Hfuel Htaken Hfree. unfold allocate.
  rewrite (bind_returned _ _ _ _ _ (gen_eq w)).
  now apply while_in_terminates.
Qed.
End Termination.

Lemma allocate_short_id_terminates existing n fuel w :
  (n <= fuel)%nat ->
  (forall j, (j < n)%nat -> short_candidate (skip (j * 4) w) ∈ existing) ->
  short_candidate (skip (n * 4) w) ∉ existing ->
  allocate fuel random_short_id existing w
  = (Returned (short_candidate (skip (n * 4) w)), skip (S n * 4) w).
Proof. apply allocate_terminates, random_short_id_eq. Qed.

Lemma allocate_guid_terminates existing n fuel w :
  (n <= fuel)%nat ->
  (forall j, (j < n)%nat -> guid_candidate (skip (j * 1) w) ∈ existing) ->
  guid_candidate (skip (n * 1) w) ∉ existing ->
  allocate fuel random_guid existing w
  = (Returned (guid_candidate (skip (n * 1) w)), skip (S n * 1) w).
Proof. apply allocate_terminates, random_guid_eq. Qed.

(** ** The body of [add_patient], step by step *)

Lemma add_patient_not_connected fuel mrn fn ln uid ug nda w :
  add_patient {| database := None |} fuel mrn fn ln uid ug nda w
  = (Raised (PyExc RuntimeError "Database not connected."), w).
Proof. reflexivity. Qed.

Lemma add_patient_indexed self db table ix fuel mrn fn ln uid ug nda w :
  database self = Some db ->
  export_answer db = inr table ->
  index_rows table empty_index = inr ix ->
  add_patient self fuel mrn fn ln uid ug nda w
  = check_and_insert db fuel ix mrn fn ln uid ug nda (logged full_export w).
Proof.
  intros Hdb Hexp Hix. unfold add_patient. rewrite Hdb.
  unfold export_records_df, mbind, M_bind, log_call, lift. rewrite Hexp. simpl.
  rewrite Hix. reflexivity.
Qed.

Lemma check_and_insert_absent db fuel ix mrn fn ln uid ug nda w :
  patient_info ix !! mrn = None ->
  check_and_insert db fuel ix mrn fn ln uid ug nda w
  = insert_patient db fuel ix mrn fn ln uid ug nda w.
Proof. intros H. unfold check_and_insert. now rewrite H. Qed.

Lemma insert_patient_run db fuel ix mrn fn ln uid ug nda w sid w1 g w2 :
  choose fuel random_short_id (ucsf_ids ix) uid w = (Returned sid, w1) ->
  choose fuel random_guid (ucsf_guids ix) ug w1 = (Returned g, w2) ->
  import_answer db [record_phi sid mrn fn ln; record_info sid g nda] = None ->
  insert_patient db fuel ix mrn fn ln uid ug nda w
  = let w3 := logged (ExportRecords [sid])
                (logged (ImportRecords [record_phi sid mrn fn ln; record_info sid g nda]) w2) in
    match refetch_answer db [sid] with
    | None => (Returned (Some (sid, g)), w3)
    | Some e =>
        if isinstance_Exception e
        then (Returned (Some (sid, g)), warning (failure_warning mrn e) w3)
        else (Raised e, w3)
    end.
Proof.
  intros Hs Hg Himp. unfold insert_patient.
  rewrite (bind_returned _ _ _ _ _ Hs), (bind_returned _ _ _ _ _ Hg).
  unfold import_records, export_records, try_except_Exception, mbind, M_bind, log_call.
  rewrite Himp. simpl.
  destruct (refetch_answer db [sid]) as [e|]; simpl; [|reflexivity].
  unfold raise. destruct (isinstance_Exception e); reflexivity.
Qed.

Lemma insert_patient_returned db fuel ix mrn fn ln uid ug nda w r w' :
  insert_patient db fuel ix mrn fn ln uid ug nda w = (Returned r, w') ->
  exists sid g w1 w2,
    r = Some (sid, g) /\
    choose fuel random_short_id (ucsf_ids ix) uid w = (Returned sid, w1) /\
    choose fuel random_guid (ucsf_guids ix) ug w1 = (Returned g, w2) /\
    In (ImportRecords [record_phi sid mrn fn ln; record_info sid g nda]) (calls w').
Proof.
  unfold insert_patient. intros H.
  apply bind_inv_returned in H as (sid & w1 & Hs & H).
  apply bind_inv_returned in H as (g & w2 & Hg & H).
  apply bind_inv_returned in H as ([] & w3 & Himp & H).
  apply bind_inv_returned in H as ([] & w4 & Hver & H).
  injection H as <- <-.
  exists sid, g, w1, w2. repeat split; try assumption.
  assert (Hc3 : In (ImportRecords [record_phi sid mrn fn ln; record_info sid g nda]) (calls w3)).
  { revert Himp. unfold import_records, mbind, M_bind, log_call. simpl.
    destruct (import_answer db _); [discriminate|].
    intros [= <-]. simpl. apply in_or_app. right. now left. }
  revert Hver. unfold try_except_Exception, export_records, mbind, M_bind, log_call. simpl.
  destruct (refetch_answer db [sid]) as [e|]; simpl.
  - destruct (isinstance_Exception e); [|discriminate].
    intros [= <-]. simpl. apply in_or_app. now left.
  - intros [= <-]. simpl. apply in_or_app. now left.
Qed.

(** ** Shape of the generated identifiers *)

Lemma forallb_below (P : nat -> bool) (n i : nat) :
  forallb P (seq 0 n) = true -> (i < n)%nat -> P i = true.
Proof.
  intros H Hi. rewrite forallb_forall in H. apply H, in_seq. lia.
Qed.

Lemma length_of_chars l : String.length (PyStr.of_chars l) = length l.
Proof. induction l as [|c l IH]; simpl; congruence. Qed.

Lemma chars_of_chars l : PyStr.chars (PyStr.of_chars l) = l.
Proof. apply list_ascii_of_string_of_list_ascii. Qed.

Lemma candidate_char_valid w i : id_char (candidate_char w i) = true.
Proof.
  unfold candidate_char.
  set (r := entropy w (i + drawn w)).
  apply (forallb_below (fun j => id_char (PyStr.index valid_id_chars j)) 36).
  - reflexivity.
  - change (N.of_nat (String.length valid_id_chars)) with 36%N.
    pose proof (N.mod_upper_bound r 36). lia.
Qed.

Lemma short_candidate_valid w : is_short_id (short_candidate w) = true.
Proof.
  unfold is_short_id, short_candidate, PyStr.join.
  rewrite length_of_chars, chars_of_chars. simpl.
  rewrite !candidate_char_valid. reflexivity.
Qed.

Section Render.
Variable base : N.
Hypothesis base_gt_1 : (1 < base)%N.

Lemma render_length fuel : forall n acc k,
  (n < base ^ N.of_nat k)%N -> (1 <= k)%nat ->
  (length (PyInt.render base fuel n acc) <= k + length acc)%nat.
Proof.
  induction fuel as [|fuel IH]; intros n acc k Hn Hk; simpl; [lia|].
  destruct (N.eqb_spec (n / base) 0) as [Hq|Hq]; simpl; [lia|].
  destruct k as [|[|k]]; [lia| |].
  - exfalso. apply Hq, N.div_small. now rewrite N.pow_1_r in Hn.
  - etransitivity; [apply (IH _ _ (S k)); [|lia]|simpl; lia].
    apply N.Div0.div_lt_upper_bound.
    rewrite <- N.pow_succ_r', <- Nat2N.inj_succ. exact Hn.
Qed.

Lemma render_Forall (P : ascii -> Prop) fuel : forall n acc,
  (forall d, (d < base)%N -> P (PyInt.digit_char d)) ->
  Forall P acc -> Forall P (PyInt.render base fuel n acc).
Proof.
  induction fuel as [|fuel IH]; intros n acc Hd Hacc; simpl; [assumption|].
  assert (Forall P (PyInt.digit_char (n mod base) :: acc)).
  { constructor; [|assumption]. apply Hd, N.mod_upper_bound. lia. }
  destruct (n / base =? 0)%N; auto.
Qed.
End Render.

Lemma digit_char_hex d : (d < 16)%N -> hex_char (PyInt.digit_char d) = true.
Proof.
  intros Hd. unfold PyInt.digit_char.
  apply (forallb_below (fun j => hex_char (PyStr.index PyInt.digit_chars j)) 16).
  - reflexivity.
  - lia.
Qed.

Lemma zeros_hex k : Forall (fun c => hex_char c = true) (PyInt.zeros k).
Proof. unfold PyInt.zeros. induction k; simpl; constructor; auto. Qed.

Lemma format_0x_guid n : (n < 2 ^ 128)%N -> is_hex_guid (PyInt.format_0x 32 n) = true.
Proof.
  intros Hn. unfold is_hex_guid, PyInt.format_0x.
  rewrite length_of_chars, chars_of_chars.
  assert (Hlen : (length (PyInt.digits 16 n) <= 32)%nat).
  { unfold PyInt.digits.
    pose proof (render_length 16 ltac:(lia) (S (N.to_nat (N.log2 n))) n [] 32) as H.
    simpl length in H. rewrite Nat.add_0_r in H. apply H; [|lia].
    change (16 ^ N.of_nat 32)%N with (2 ^ 128)%N. exact Hn. }
  apply andb_true_intro. split.
  - apply Nat.eqb_eq. rewrite length_app. unfold PyInt.zeros. rewrite repeat_length. lia.
  - apply forallb_forall. intros c Hc.
    apply in_app_or in Hc as [Hc|Hc].
    + pose proof (zeros_hex (32 - length (PyInt.digits 16 n))) as Hz.
      rewrite List.Forall_forall in Hz. now apply Hz.
    + pose proof (render_Forall 16 ltac:(lia) (fun c => hex_char c = true)
                    (S (N.to_nat (N.log2 n))) n [] digit_char_hex ltac:(constructor)) as Hr.
      rewrite List.Forall_forall in Hr. now apply Hr.
Qed.

Lemma uuid_int_bound x v : (x < 2 ^ 128)%N -> (v < 16)%N -> (uuid_int x v < 2 ^ 128)%N.
Proof.
  intros Hx Hv. unfold uuid_int.
  assert (Hlor : forall a b, (a < 2 ^ 128)%N -> (b < 2 ^ 128)%N -> (N.lor a b < 2 ^ 128)%N).
  { intros a b Ha Hb.
    destruct (N.eq_dec (N.lor a b) 0%N) as [->|Hne]; [reflexivity|].
    apply N.log2_lt_pow2; [lia|]. rewrite N.log2_lor.
    destruct (N.eq_dec a 0%N) as [->|Ha0]; destruct (N.eq_dec b 0%N) as [->|Hb0].
    - now elim Hne.
    - apply N.max_lub_lt; [reflexivity|]. apply N.log2_lt_pow2; [lia|assumption].
    - apply N.max_lub_lt; [|reflexivity]. apply N.log2_lt_pow2; [lia|assumption].
    - apply N.max_lub_lt; apply N.log2_lt_pow2; try assumption; lia. }
  apply Hlor.
  - eapply N.le_lt_trans; [apply N.ldiff_le_l|].
    apply Hlor; [|reflexivity].
    eapply N.le_lt_trans; [apply N.ldiff_le_l|exact Hx].
  - rewrite N.shiftl_mul_pow2.
    change (2 ^ 128)%N with (16 * 2 ^ 124)%N.
    change (2 ^ 76)%N with (2 ^ 76)%N.
    assert (2 ^ 76 <= 2 ^ 124)%N by (apply N.pow_le_mono_r; lia).
    nia.
Qed.

Lemma guid_candidate_valid w : is_hex_guid (guid_candidate w) = true.
Proof.
  unfold guid_candidate, uuid_hex. apply format_0x_guid, uuid_int_bound; [|reflexivity].
  apply N.mod_upper_bound. discriminate.
Qed.

(** ** Rendering and reading decimal digits *)

Section Digits.
Variable base : N.
Hypothesis base_ge_2 : (2 <= base)%N.

Lemma render_app fuel : forall n acc,
  PyInt.render base fuel n acc = PyInt.render base fuel n [] ++ acc.
Proof.
  induction fuel as [|fuel IH]; intros n acc; simpl; [reflexivity|].
  destruct (n / base =? 0)%N; [reflexivity|].
  rewrite IH, (IH _ [_]), <- app_assoc. reflexivity.
Qed.

Lemma render_stable f1 : forall f2 n acc,
  (1 <= f1)%nat -> (1 <= f2)%nat ->
  (n < 2 ^ N.of_nat f1)%N -> (n < 2 ^ N.of_nat f2)%N ->
  PyInt.render base f1 n acc = PyInt.render base f2 n acc.
Proof.
  induction f1 as [|f1 IH]; intros f2 n acc H1 H2 Hn1 Hn2; [lia|].
  destruct f2 as [|f2]; [lia|]. simpl.
  destruct (N.eqb_spec (n / base) 0) as [Hq|Hq]; [reflexivity|].
  assert (Hhalf : forall f, (n < 2 ^ N.of_nat (S f))%N ->
                            (n / base < 2 ^ N.of_nat f)%N /\ (1 <= f)%nat).
  { intros f Hf. rewrite Nat2N.inj_succ, N.pow_succ_r' in Hf.
    assert (Hlt : (n / base < 2 ^ N.of_nat f)%N).
    { apply N.Div0.div_lt_upper_bound.
      assert (2 * 2 ^ N.of_nat f <= base * 2 ^ N.of_nat f)%N by (apply N.mul_le_mono_r; lia).
      lia. }
    split; [exact Hlt|]. destruct f; [|lia].
    change (2 ^ N.of_nat 0)%N with 1%N in Hlt. exfalso. apply Hq. now apply N.lt_1_r. }
  destruct (Hhalf f1 Hn1), (Hhalf f2 Hn2). now apply IH.
Qed.

Lemma log2_fuel n : (n < 2 ^ N.of_nat (S (N.to_nat (N.log2 n))))%N.
Proof.
  rewrite Nat2N.inj_succ, N2Nat.id.
  destruct (N.eq_dec n 0%N) as [->|Hn]; [reflexivity|].
  apply N.log2_spec. lia.
Qed.

Lemma digits_small n : (n < base)%N -> PyInt.digits base n = [PyInt.digit_char n].
Proof.
  intros Hn. unfold PyInt.digits. simpl.
  rewrite (N.div_small n base Hn), (N.mod_small n base Hn). reflexivity.
Qed.

Lemma digits_step n d :
  (0 < n)%N -> (d < base)%N ->
  PyInt.digits base (base * n + d) = PyInt.digits base n ++ [PyInt.digit_char d].
Proof.
  intros Hn Hd.
  assert (Hq : ((base * n + d) / base = n)%N).
  { rewrite (N.mul_comm base n), N.div_add_l by lia. rewrite (N.div_small d base Hd). lia. }
  assert (Hr : ((base * n + d) mod base = d)%N).
  { rewrite N.add_comm, N.mul_comm, N.Div0.mod_add. now apply N.mod_small. }
  unfold PyInt.digits at 1. simpl. rewrite Hq, Hr.
  destruct (N.eqb_spec n 0) as [->|_]; [lia|].
  rewrite render_app. f_equal. unfold PyInt.digits.
  assert (Hlog : (1 <= N.log2 (base * n + d))%N).
  { apply N.log2_le_pow2; [lia|]. change (2 ^ 1)%N with 2%N. nia. }
  apply render_stable.
  - lia.
  - lia.
  - rewrite N2Nat.id.
    assert (Hup : (base * n + d < 2 ^ N.succ (N.log2 (base * n + d)))%N)
      by (apply N.log2_spec; lia).
    rewrite N.pow_succ_r' in Hup. nia.
  - apply log2_fuel.
Qed.
End Digits.

Lemma digit_char_val c :
  PyStr.is_digit c = true ->
  PyInt.digit_char (PyInt.digit_val c) = c /\ (PyInt.digit_val c < 10)%N.
Proof.
  destruct c as [[] [] [] [] [] [] [] []]; try discriminate; intros _; split; reflexivity.
Qed.

Lemma digit_not_blank_or_sign c :
  PyStr.is_digit c = true ->
  PyStr.is_space c = false /\ Ascii.eqb c "-" = false /\ Ascii.eqb c "+" = false.
Proof.
  destruct c as [[] [] [] [] [] [] [] []]; try discriminate; intros _; repeat split.
Qed.

Lemma digit_val_zero c :
  PyStr.is_digit c = true -> PyInt.digit_val c = 0%N -> c = "0"%char.
Proof.
  destruct c as [[] [] [] [] [] [] [] []]; try discriminate; intros _; try discriminate;
    reflexivity.
Qed.

Lemma decimal_value_snoc l c :
  decimal_value (l ++ [c]) = (10 * decimal_value l + PyInt.digit_val c)%N.
Proof. unfold decimal_value. now rewrite fold_left_app. Qed.

Lemma parse_digits_value l : forall acc b,
  forallb PyStr.is_digit l = true ->
  l <> [] \/ b = true ->
  PyInt.parse_digits l acc b
  = Some (fold_left (fun a c => (10 * a + PyInt.digit_val c)%N) l acc).
Proof.
  induction l as [|c l IH]; intros acc b Hall Hne; simpl.
  - destruct Hne as [Hne| ->]; [contradiction|reflexivity].
  - simpl in Hall. apply andb_prop in Hall as (Hc & Hall). rewrite Hc.
    apply IH; auto.
Qed.

Lemma decimal_value_zero l :
  forallb PyStr.is_digit l = true -> decimal_value l = 0%N -> l = PyInt.zeros (length l).
Proof.
  induction l as [|c l IH] using rev_ind; intros Hall Hzero; [reflexivity|].
  rewrite forallb_app in Hall. apply andb_prop in Hall as (Hall & Hc).
  simpl in Hc. rewrite andb_true_r in Hc.
  rewrite decimal_value_snoc in Hzero.
  assert (decimal_value l = 0%N /\ PyInt.digit_val c = 0%N) as (Hl & Hd) by lia.
  rewrite (digit_val_zero c Hc Hd), length_app, Nat.add_comm. simpl.
  rewrite (IH Hall Hl) at 1. unfold PyInt.zeros. now rewrite <- repeat_cons.
Qed.

(** Rendering what a digit string denotes, padded back to the length of the
    string, gives the string. *)
Lemma digits_decimal_value l :
  l <> [] -> forallb PyStr.is_digit l = true ->
  PyInt.zeros (length l - length (PyInt.digits 10 (decimal_value l)))
  ++ PyInt.digits 10 (decimal_value l) = l.
Proof.
  induction l as [|c l IH] using rev_ind; intros Hne Hall; [contradiction|].
  rewrite forallb_app in Hall. apply andb_prop in Hall as (Hall & Hc).
  simpl in Hc. rewrite andb_true_r in Hc.
  destruct (digit_char_val c Hc) as (Hchar & Hlt).
  rewrite decimal_value_snoc, length_app. simpl length.
  destruct (N.eq_dec (decimal_value l) 0%N) as [Hzero|Hpos].
  - rewrite Hzero, N.mul_0_r, N.add_0_l, (digits_small 10 _ Hlt), Hchar. simpl length.
    rewrite Nat.add_sub.
    now rewrite <- (decimal_value_zero l Hall Hzero).
  - assert (Hbase : (2 <= 10)%N) by lia.
    assert (Hgt : (0 < decimal_value l)%N) by lia.
    rewrite (digits_step 10 Hbase _ _ Hgt Hlt), Hchar, length_app. simpl length.
    replace (length l + 1 - (length (PyInt.digits 10 (decimal_value l)) + 1))%nat
      with (length l - length (PyInt.digits 10 (decimal_value l)))%nat by lia.
    rewrite app_assoc. f_equal. apply IH; [|exact Hall].
    intros ->. now apply Hpos.
Qed.

Lemma strip_digits l :
  forallb PyStr.is_digit l = true -> PyStr.strip l = l.
Proof.
  intros Hall.
  assert (Hl : forall l', forallb PyStr.is_digit l' = true -> PyStr.lstrip l' = l').
  { intros [|c l'] H; [reflexivity|]. simpl in *. apply andb_prop in H as (Hc & _).
    now destruct (digit_not_blank_or_sign c Hc) as (-> & _). }
  unfold PyStr.strip. rewrite (Hl l Hall), Hl, rev_involutive; [reflexivity|].
  rewrite forallb_forall in *. intros c Hc. apply Hall. now apply in_rev.
Qed.

Lemma length_chars s : length (PyStr.chars s) = String.length s.
Proof. induction s as [|c s IH]; simpl; congruence. Qed.

(** [int()] followed by the zero-padded format is the identity on a text of
    [w] decimal digits. *)
Lemma format_0d_of_str_digits w s :
  String.length s = w -> (1 <= w <= PyInt.max_str_digits)%nat -> all_digits s = true ->
  PyInt.of_str s = Some (Z.of_N (decimal_value (PyStr.chars s))) /\
  PyInt.format_0d w (Z.of_N (decimal_value (PyStr.chars s))) = s.
Proof.
  unfold all_digits. intros Hlen Hw Hall.
  rewrite <- length_chars in Hlen.
  assert (Hs : PyStr.of_chars (PyStr.chars s) = s) by apply string_of_list_ascii_of_string.
  set (l := PyStr.chars s) in *.
  assert (Hne : l <> []) by (intros ->; simpl in Hlen; lia).
  split.
  - unfold PyInt.of_str. fold l. rewrite (strip_digits l Hall).
    destruct l as [|c l'] eqn:El; [contradiction|]. rewrite <- El in *.
    assert (Hc : PyStr.is_digit c = true).
    { rewrite El in Hall. simpl in Hall. now apply andb_prop in Hall as (Hc & _). }
    destruct (digit_not_blank_or_sign c Hc) as (_ & -> & ->).
    unfold PyInt.magnitude.
    assert (Hcount : (length (filter (fun c => Is_true (PyStr.is_digit c)) l)
                      <= PyInt.max_str_digits)%nat).
    { etransitivity; [apply length_filter|]. lia. }
    apply Nat.ltb_ge in Hcount. rewrite Hcount.
    rewrite (parse_digits_value l 0%N false Hall (or_introl Hne)). reflexivity.
  - unfold PyInt.format_0d.
    rewrite Zabs2N.id.
    assert (Hsign : (Z.of_N (decimal_value l) <? 0)%Z = false)
      by (apply Z.ltb_ge, N2Z.is_nonneg).
    rewrite Hsign. simpl length. rewrite Nat.sub_0_r, app_nil_l, <- Hlen.
    now rewrite (digits_decimal_value l Hne Hall).
Qed.

(** ** The indexing loop *)

Lemma index_mrn_inr r info info' :
  index_mrn r info = inr info' ->
  info' = match mrn_key r with
          | Some k => <[k := (row_first_name r, row_last_name r)]> info
          | None => info
          end.
Proof.
  unfold index_mrn, mrn_key.
  destruct (is_str (row_mrn r) || negb (isnan (row_mrn r))).
  - destruct (py_int (row_mrn r)); [discriminate|]. now intros [= <-].
  - now intros [= <-].
Qed.

Lemma index_id_inr w c ids ids' :
  index_id w c ids = inr ids' ->
  ids ⊆ ids' /\ forall s, c = CStr s -> s ∈ ids'.
Proof.
  unfold index_id. destruct c as [s|z|f].
  - intros [= <-]. split; [set_solver|]. intros s' [= <-]. set_solver.
  - destruct (negb (isnan (CInt z))).
    + destruct (py_int (CInt z)); [discriminate|]. intros [= <-]. split; [set_solver|discriminate].
    + intros [= <-]. split; [set_solver|discriminate].
  - destruct (negb (isnan (CFloat f))).
    + destruct (py_int (CFloat f)); [discriminate|]. intros [= <-]. split; [set_solver|discriminate].
    + intros [= <-]. split; [set_solver|discriminate].
Qed.

Lemma index_row_inr r ix ix' :
  index_row r ix = inr ix' ->
  index_mrn r (patient_info ix) = inr (patient_info ix') /\
  index_id 4 (row_ucsf_id r) (ucsf_ids ix) = inr (ucsf_ids ix') /\
  index_id 32 (row_ucsf_guid r) (ucsf_guids ix) = inr (ucsf_guids ix') /\
  index_id 32 (row_nda_guid r) (nda_guids ix) = inr (nda_guids ix').
Proof.
  unfold index_row.
  destruct (index_mrn r (patient_info ix)); [discriminate|].
  destruct (index_id 4 (row_ucsf_id r) (ucsf_ids ix)); [discriminate|].
  destruct (index_id 32 (row_ucsf_guid r) (ucsf_guids ix)); [discriminate|].
  destruct (index_id 32 (row_nda_guid r) (nda_guids ix)); [discriminate|].
  now intros [= <-].
Qed.

Lemma index_rows_absent table : forall ix0 ix k,
  index_rows table ix0 = inr ix ->
  (forall r, In r table -> mrn_key r <> Some k) ->
  patient_info ix !! k = patient_info ix0 !! k.
Proof.
  induction table as [|r table IH]; intros ix0 ix k; simpl.
  - now intros [= <-].
  - destruct (index_row r ix0) as [e|ix1] eqn:Hrow; [discriminate|].
    intros Hrows Hkeys.
    rewrite (IH ix1 ix k Hrows) by (intros r' Hr'; apply Hkeys; now right).
    apply index_row_inr in Hrow as (Hm & _). apply index_mrn_inr in Hm. rewrite Hm.
    specialize (Hkeys r (or_introl eq_refl)).
    destruct (mrn_key r) as [k'|]; [|reflexivity].
    apply lookup_insert_ne. congruence.
Qed.

Lemma index_rows_keeps table : forall ix0 ix k,
  index_rows table ix0 = inr ix ->
  is_Some (patient_info ix0 !! k) -> is_Some (patient_info ix !! k).
Proof.
  induction table as [|r table IH]; intros ix0 ix k; simpl.
  - now intros [= <-].
  - destruct (index_row r ix0) as [e|ix1] eqn:Hrow; [discriminate|].
    intros Hrows Hk. apply (IH ix1 ix k Hrows).
    apply index_row_inr in Hrow as (Hm & _). apply index_mrn_inr in Hm. rewrite Hm.
    destruct (mrn_key r) as [k'|]; [|assumption].
    rewrite lookup_insert_is_Some. destruct (decide (k' = k)); auto.
Qed.

Lemma index_rows_files table : forall ix0 ix r k,
  index_rows table ix0 = inr ix ->
  In r table -> mrn_key r = Some k ->
  is_Some (patient_info ix !! k).
Proof.
  induction table as [|r0 table IH]; intros ix0 ix r k; simpl; [tauto|].
  destruct (index_row r0 ix0) as [e|ix1] eqn:Hrow; [discriminate|].
  intros Hrows [->|Hin] Hk.
  - apply (index_rows_keeps _ _ _ _ Hrows).
    apply index_row_inr in Hrow as (Hm & _). apply index_mrn_inr in Hm.
    rewrite Hm, Hk, lookup_insert_eq. eauto.
  - eapply IH; eauto.
Qed.

Lemma index_rows_sets table : forall ix0 ix,
  index_rows table ix0 = inr ix ->
  (ucsf_ids ix0 ⊆ ucsf_ids ix /\ ucsf_guids ix0 ⊆ ucsf_guids ix) /\
  forall r, In r table ->
    (forall s, row_ucsf_id r = CStr s -> s ∈ ucsf_ids ix) /\
    (forall s, row_ucsf_guid r = CStr s -> s ∈ ucsf_guids ix).
Proof.
  induction table as [|r0 table IH]; intros ix0 ix; simpl.
  - intros [= <-]. split; [split; set_solver|tauto].
  - destruct (index_row r0 ix0) as [e|ix1] eqn:Hrow; [discriminate|].
    intros Hrows. destruct (IH _ _ Hrows) as ((Hi & Hg) & Hstr).
    apply index_row_inr in Hrow as (_ & Hu & Hgu & _).
    apply index_id_inr in Hu as (Hu1 & Hu2). apply index_id_inr in Hgu as (Hg1 & Hg2).
    split; [split; etransitivity; eassumption|].
    intros r [<-|Hin]; [|now apply Hstr].
    split; intros s Hs; [apply Hi, Hu2, Hs | apply Hg, Hg2, Hs].
Qed.

(** ** Record dictionaries and the duplicate check *)

Lemma record_phi_fields sid mrn fn ln :
  record_phi sid mrn fn ln !! "record_id" = Some (VStr sid) /\
  record_phi sid mrn fn ln !! "redcap_event_name" = Some (VStr "general_phi_arm_1") /\
  record_phi sid mrn fn ln !! "mrn" = Some (VStr mrn) /\
  record_phi sid mrn fn ln !! "first_name" = Some (VStr fn) /\
  record_phi sid mrn fn ln !! "last_name" = Some (VStr ln) /\
  size (record_phi sid mrn fn ln) = 5%nat.
Proof. repeat split. Qed.

Lemma record_info_fields sid g nda :
  record_info sid g nda !! "record_id" = Some (VStr sid) /\
  record_info sid g nda !! "redcap_event_name" = Some (VStr "demographics_arm_1") /\
  record_info sid g nda !! "ucsf_id" = Some (VStr sid) /\
  record_info sid g nda !! "ucsf_guid" = Some (VStr g) /\
  record_info sid g nda !! "nda_guid" = Some (of_optional nda) /\
  size (record_info sid g nda) = 5%nat.
Proof. repeat split. Qed.

Lemma names_match_same fn ln f l :
  PyStr.lower fn = PyStr.lower f -> PyStr.lower ln = PyStr.lower l ->
  names_match fn ln (CStr f, CStr l) = inr true.
Proof.
  intros Hf Hl. unfold names_match. simpl. rewrite Hf, Hl, !String.eqb_refl. reflexivity.
Qed.



Lemma check_and_insert_returned db fuel ix mrn fn ln uid ug nda w p w' :
  check_and_insert db fuel ix mrn fn ln uid ug nda w = (Returned (Some p), w') ->
  patient_info ix !! mrn = None /\
  insert_patient db fuel ix mrn fn ln uid ug nda w = (Returned (Some p), w').
Proof.
  unfold check_and_insert. destruct (patient_info ix !! mrn) as [p_info|]; [|auto].
  unfold mbind, M_bind, lift.
  destruct (names_match fn ln p_info) as [e|[]]; simpl; discriminate.
Qed.

(** Whatever the loop returns was either its starting value or generated. *)
Lemma choose_generated (P : string -> Prop) fuel gen existing w x w' :
  (forall v a v', gen v = (Returned a, v') -> P a) ->
  choose fuel gen existing None w = (Returned x, w') -> P x.
Proof.
  intros Hgen. simpl. unfold allocate. intros H.
  apply bind_inv_returned in H as (x0 & w0 & Hg & H).
  apply Hgen in Hg. revert x0 w0 Hg H.
  induction fuel as [|fuel IH]; intros x0 w0 Hx0; simpl;
    destruct (decide (x0 ∈ existing)); try discriminate; try (now intros [= <- <-]).
  intros H. apply bind_inv_returned in H as (x1 & w1 & Hg & H).
  apply Hgen in Hg. eauto.
Qed.

Lemma add_patient_returned self fuel mrn fn ln uid ug nda w p w' :
  add_patient self fuel mrn fn ln uid ug nda w = (Returned (Some p), w') ->
  exists db table ix,
    database self = Some db /\
    export_answer db = inr table /\
    index_rows table empty_index = inr ix /\
    patient_info ix !! mrn = None /\
    insert_patient db fuel ix mrn fn ln uid ug nda (logged full_export w)
    = (Returned (Some p), w').
Proof.
  unfold add_patient. destruct (database self) as [db|] eqn:Hdb; [|discriminate].
  unfold export_records_df, mbind, M_bind, log_call, lift.
  destruct (export_answer db) as [e|table] eqn:Hexp; [discriminate|]. simpl.
  destruct (index_rows table empty_index) as [e|ix] eqn:Hix; [discriminate|]. simpl.
  intros H. apply check_and_insert_returned in H as (Habs & H).
  exists db, table, ix. repeat split; assumption || reflexivity.
Qed.

(** ** Every run of the insertion *)

Lemma random_short_id_quiet v o v' :
  random_short_id v = (o, v') -> calls v' = calls v /\ warned v' = warned v.
Proof. rewrite random_short_id_eq. now intros [= <- <-]. Qed.

Lemma random_guid_quiet v o v' :
  random_guid v = (o, v') -> calls v' = calls v /\ warned v' = warned v.
Proof. rewrite random_guid_eq. now intros [= <- <-]. Qed.

(** Choosing an identifier sends nothing to the service and warns of nothing,
    however the choice ends. *)
Lemma choose_quiet fuel gen existing supplied w o w' :
  (forall v a v', gen v = (a, v') -> calls v' = calls v /\ warned v' = warned v) ->
  choose fuel gen existing supplied w = (o, w') ->
  calls w' = calls w /\ warned w' = warned w.
Proof.
  intros Hgen. destruct supplied as [u|]; simpl; [now intros [= <- <-]|].
  unfold allocate, mbind, M_bind.
  destruct (gen w) as [[x0| |] w0] eqn:Hg; destruct (Hgen _ _ _ Hg) as (<- & <-);
    try (now intros [= <- <-]).
  clear Hg. revert x0 w0.
  induction fuel as [|fuel IH]; intros x0 w0; simpl;
    destruct (decide (x0 ∈ existing)); try (now intros [= <- <-]).
  unfold mbind, M_bind.
  destruct (gen w0) as [[x1| |] w1] eqn:Hg; destruct (Hgen _ _ _ Hg) as (<- & <-);
    try (now intros [= <- <-]).
  apply IH.
Qed.

(** Every run of [insert_patient]: either no identifier pair was chosen and
    nothing was sent, or the pair was chosen and the import of its two
    records was sent, followed at most by the re-fetch. *)
Lemma insert_patient_trace db fuel ix mrn fn ln uid ug nda w o w' :
  insert_patient db fuel ix mrn fn ln uid ug nda w = (o, w') ->
  (calls w' = calls w /\ forall p, o <> Returned p) \/
  exists sid g w1 w2 tail,
    choose fuel random_short_id (ucsf_ids ix) uid w = (Returned sid, w1) /\
    choose fuel random_guid (ucsf_guids ix) ug w1 = (Returned g, w2) /\
    calls w' = calls w ++ ImportRecords [record_phi sid mrn fn ln; record_info sid g nda] :: tail /\
    (tail = [] \/ tail = [ExportRecords [sid]]) /\
    forall p, o = Returned p -> p = Some (sid, g).
Proof.
  unfold insert_patient. unfold mbind at 1, M_bind at 1.
  destruct (choose fuel random_short_id (ucsf_ids ix) uid w) as [[sid|e|] w1] eqn:Hs;
    destruct (choose_quiet _ _ _ _ _ _ _ random_short_id_quiet Hs) as (Hc1 & _);
    try (intros [= <- <-]; left; split; [exact Hc1|discriminate]).
  unfold mbind at 1, M_bind at 1.
  destruct (choose fuel random_guid (ucsf_guids ix) ug w1) as [[g|e|] w2] eqn:Hg;
    destruct (choose_quiet _ _ _ _ _ _ _ random_guid_quiet Hg) as (Hc2 & _);
    try (intros [= <- <-]; left; split; [congruence|discriminate]).
  intros Hrun. right. exists sid, g, w1, w2.
  revert Hrun. unfold import_records, export_records, try_except_Exception, mbind, M_bind,
    log_call, raise. simpl.
  destruct (import_answer db _) as [e|]; simpl.
  - intros [= <- <-]. exists []. simpl. rewrite Hc2, Hc1.
    repeat split; auto. discriminate.
  - destruct (refetch_answer db [sid]) as [e|]; simpl.
    + destruct (isinstance_Exception e); intros [= <- <-];
        exists [ExportRecords [sid]]; simpl; rewrite Hc2, Hc1, <- app_assoc;
        repeat split; auto; try discriminate. now intros p [= <-].
    + intros [= <- <-]. exists [ExportRecords [sid]]. simpl.
      rewrite Hc2, Hc1, <- app_assoc. repeat split; auto. now intros p [= <-].
Qed.

(** The duplicate check sends nothing. *)
Lemma check_and_insert_trace db fuel ix mrn fn ln uid ug nda w o w' :
  check_and_insert db fuel ix mrn fn ln uid ug nda w = (o, w') ->
  (calls w' = calls w /\ forall p, o <> Returned (Some p)) \/
  (patient_info ix !! mrn = None /\
   insert_patient db fuel ix mrn fn ln uid ug nda w = (o, w')).
Proof.
  unfold check_and_insert. destruct (patient_info ix !! mrn) as [p_info|]; [|auto].
  unfold mbind, M_bind, lift, raise, warn.
  destruct (names_match fn ln p_info) as [e|[]]; simpl; intros [= <- <-]; left;
    split; auto; discriminate.
Qed.

(** ** The contract of [add_patient] on a connected instance *)

Section Connected.
Variable self : HumanNeuroRedcap.
Variable db : Project.
Variable table : list row.
Variable ix : index.
Hypothesis connected : database self = Some db.
Hypothesis exported : export_answer db = inr table.
Hypothesis indexed : index_rows table empty_index = inr ix.

(** What the call yields once both identifiers are chosen and the import
    is accepted, whatever the re-fetch answers. *)
Lemma add_patient_run fuel mrn fn ln uid ug nda w sid w1 g w2 :
  patient_info ix !! mrn = None ->
  choose fuel random_short_id (ucsf_ids ix) uid (logged full_export w) = (Returned sid, w1) ->
  choose fuel random_guid (ucsf_guids ix) ug w1 = (Returned g, w2) ->
  import_answer db [record_phi sid mrn fn ln; record_info sid g nda] = None ->
  add_patient self fuel mrn fn ln uid ug nda w
  = let w3 := logged (ExportRecords [sid])
                (logged (ImportRecords [record_phi sid mrn fn ln; record_info sid g nda]) w2) in
    match refetch_answer db [sid] with
    | None => (Returned (Some (sid, g)), w3)
    | Some e =>
        if isinstance_Exception e
        then (Returned (Some (sid, g)), warning (failure_warning mrn e) w3)
        else (Raised e, w3)
    end.
Proof.
  intros Habs Hs Hg Himp.
  rewrite (add_patient_indexed self db table ix) by assumption.
  rewrite check_and_insert_absent by assumption.
  apply insert_patient_run with (w1 := w1); assumption.
Qed.

(** The same, when the re-fetch passes or fails with an [Exception]: the
    call returns the pair after exactly three requests. *)
Lemma add_patient_returns fuel mrn fn ln uid ug nda w sid w1 g w2 :
  patient_info ix !! mrn = None ->
  choose fuel random_short_id (ucsf_ids ix) uid (logged full_export w) = (Returned sid, w1) ->
  choose fuel random_guid (ucsf_guids ix) ug w1 = (Returned g, w2) ->
  import_answer db [record_phi sid mrn fn ln; record_info sid g nda] = None ->
  (forall e, refetch_answer db [sid] = Some e -> isinstance_Exception e = true) ->
  exists w',
    add_patient self fuel mrn fn ln uid ug nda w = (Returned (Some (sid, g)), w') /\
    calls w' = calls w ++ [full_export;
                           ImportRecords [record_phi sid mrn fn ln; record_info sid g nda];
                           ExportRecords [sid]] /\
    warned w' = warned w ++ match refetch_answer db [sid] with
                            | Some e => [failure_warning mrn e]
                            | None => []
                            end.
Proof.
  intros Habs Hs Hg Himp Hver.
  rewrite (add_patient_run fuel mrn fn ln uid ug nda w sid w1 g w2) by assumption.
  destruct (choose_quiet _ _ _ _ _ _ _ random_short_id_quiet Hs) as (Hc1 & Hw1).
  destruct (choose_quiet _ _ _ _ _ _ _ random_guid_quiet Hg) as (Hc2 & Hw2).
  simpl in Hc1, Hw1.
  destruct (refetch_answer db [sid]) as [e|].
  - rewrite (Hver e eq_refl). eexists. split; [reflexivity|]. simpl.
    rewrite Hc2, Hc1, Hw2, Hw1, <- !app_assoc. auto.
  - eexists. split; [reflexivity|]. simpl.
    rewrite Hc2, Hc1, Hw2, Hw1, <- !app_assoc, app_nil_r. auto.
Qed.

(** C1. An insertion whose generated short ID and GUID are not among the
    existing identifiers (as with an empty table) sends one batch import of
    exactly two record dictionaries, both with the generated short ID as
    [record_id]: the PHI event record with [mrn], [first_name] and
    [last_name], and the demographics event record with [ucsf_id],
    [ucsf_guid] and [nda_guid]; the call returns the pair
    (short ID, GUID). *)
Theorem add_patient_inserts_two_event_records fuel mrn fn ln nda w :
  let w0 := logged full_export w in
  let sid := short_candidate w0 in
  let g := guid_candidate (skip 4 w0) in
  let phi := record_phi sid mrn fn ln in
  let info := record_info sid g nda in
  patient_info ix !! mrn = None ->
  sid ∉ ucsf_ids ix ->
  g ∉ ucsf_guids ix ->
  import_answer db [phi; info] = None ->
  (forall e, refetch_answer db [sid] = Some e -> isinstance_Exception e = true) ->
  exists w',
    add_patient self fuel mrn fn ln None None nda w = (Returned (Some (sid, g)), w') /\
    calls w' = calls w ++ [full_export; ImportRecords [phi; info]; ExportRecords [sid]] /\
    (phi !! "record_id" = Some (VStr sid) /\
     phi !! "redcap_event_name" = Some (VStr "general_phi_arm_1") /\
     phi !! "mrn" = Some (VStr mrn) /\
     phi !! "first_name" = Some (VStr fn) /\
     phi !! "last_name" = Some (VStr ln) /\
     size phi = 5%nat) /\
    (info !! "record_id" = Some (VStr sid) /\
     info !! "redcap_event_name" = Some (VStr "demographics_arm_1") /\
     info !! "ucsf_id" = Some (VStr sid) /\
     info !! "ucsf_guid" = Some (VStr g) /\
     info !! "nda_guid" = Some (of_optional nda) /\
     size info = 5%nat).
Proof.
  intros w0 sid g phi info Habs Hsid Hg Himp Hver.
  destruct (add_patient_returns fuel mrn fn ln None None nda w sid (skip 4 w0) g
              (skip 1 (skip 4 w0))) as (w' & Hrun & Hcalls & _); try assumption.
  - apply allocate_fresh; [apply random_short_id_eq|exact Hsid].
  - apply allocate_fresh; [apply random_guid_eq|exact Hg].
  - exists w'. split; [exact Hrun|]. split; [exact Hcalls|].
    split; [apply record_phi_fields|apply record_info_fields].
Qed.

(** C2. When the indexed table maps the caller's [mrn] to a stored
    (first name, last name) equal to the call's names up to case, the call
    emits the duplicate warning and returns [None]; the only request sent
    is the initial export, so no import is submitted. *)
Theorem add_patient_matching_duplicate fuel mrn fn ln uid ug nda w stored_first stored_last :
  patient_info ix !! mrn = Some (CStr stored_first, CStr stored_last) ->
  PyStr.lower fn = PyStr.lower stored_first ->
  PyStr.lower ln = PyStr.lower stored_last ->
  exists w',
    add_patient self fuel mrn fn ln uid ug nda w = (Returned None, w') /\
    calls w' = calls w ++ [full_export] /\
    warned w' = warned w ++ [duplicate_warning mrn] /\
    drawn w' = drawn w.
Proof.
  intros Hdup Hf Hl.
  rewrite (add_patient_indexed self db table ix) by assumption.
  unfold check_and_insert. rewrite Hdup, (names_match_same _ _ _ _ Hf Hl).
  eexists. split; [reflexivity|]. simpl. auto.
Qed.


(** A re-fetch failure that is not an [Exception] is not caught. *)
Lemma non_exception_propagates fuel mrn fn ln uid ug nda w sid w1 g w2 e :
  patient_info ix !! mrn = None ->
  choose fuel random_short_id (ucsf_ids ix) uid (logged full_export w) = (Returned sid, w1) ->
  choose fuel random_guid (ucsf_guids ix) ug w1 = (Returned g, w2) ->
  import_answer db [record_phi sid mrn fn ln; record_info sid g nda] = None ->
  refetch_answer db [sid] = Some e ->
  isinstance_Exception e = false ->
  exists w', add_patient self fuel mrn fn ln uid ug nda w = (Raised e, w').
Proof.
  intros Habs Hs Hg Himp Hver He.
  rewrite (add_patient_run fuel mrn fn ln uid ug nda w sid w1 g w2) by assumption.
  simpl. rewrite Hver, He. eauto.
Qed.

(** C4. Whenever the call sends an import, the short ID it writes, if it was
    not supplied, is outside the set of short IDs collected from the export,
    and the GUID it writes, if it was not supplied, is outside the set of
    collected GUIDs; in particular neither equals an identifier string
    present in a row of the export.  A call that returns a pair has sent the
    import, and the pair is the one it wrote. *)
Theorem allocated_identifiers_are_fresh fuel mrn fn ln uid ug nda w o w' :
  add_patient self fuel mrn fn ln uid ug nda w = (o, w') ->
  exists sent,
    calls w' = calls w ++ full_export :: sent /\
    (forall batch, In (ImportRecords batch) sent ->
       exists sid g,
         batch = [record_phi sid mrn fn ln; record_info sid g nda] /\
         (uid = None ->
          (sid ∉ ucsf_ids ix) /\
          forall r s, In r table -> row_ucsf_id r = CStr s -> sid <> s) /\
         (ug = None ->
          (g ∉ ucsf_guids ix) /\
          forall r s, In r table -> row_ucsf_guid r = CStr s -> g <> s) /\
         (forall p, o = Returned p -> p = Some (sid, g))) /\
    (forall p, o = Returned (Some p) -> exists batch, In (ImportRecords batch) sent).
Proof.
  rewrite (add_patient_indexed self db table ix) by assumption.
  intros Hrun. destruct (index_rows_sets _ _ _ indexed) as (_ & Hrows).
  apply check_and_insert_trace in Hrun as [(Hcalls & Hout)|(_ & Hrun)].
  { exists []. split; [exact Hcalls|]. split; [intros batch []|].
    intros p ->. now elim (Hout p). }
  apply insert_patient_trace in Hrun
    as [(Hcalls & Hout)|(sid & g & w1 & w2 & tail & Hs & Hg & Hcalls & Htail & Hout)].
  { exists []. split; [exact Hcalls|]. split; [intros batch []|].
    intros p ->. now elim (Hout (Some p)). }
  exists (ImportRecords [record_phi sid mrn fn ln; record_info sid g nda] :: tail).
  split; [|split].
  - rewrite Hcalls. simpl. now rewrite <- app_assoc.
  - intros batch [Hb|Hb].
    + injection Hb as <-. exists sid, g. split; [reflexivity|]. split; [|split].
      * intros ->. apply choose_returned in Hs. split; [exact Hs|].
        intros r s Hr Hcell ->. apply Hs. now apply (Hrows r Hr).
      * intros ->. apply choose_returned in Hg. split; [exact Hg|].
        intros r s Hr Hcell ->. apply Hg. now apply (Hrows r Hr).
      * exact Hout.
    + destruct Htail as [->| ->]; [destruct Hb|]. destruct Hb as [Hb|[]]. discriminate.
  - intros p _. eexists. now left.
Qed.

(** C7, as amended.  The handler of the re-fetch is [except Exception].
    When the re-fetch that follows the import raises an exception of the
    class [Exception], the call catches it, emits the failure warning and
    still returns the pair (short ID, GUID); the requests sent are the
    export, the one import and the one re-fetch, so the import is neither
    repeated nor undone. *)
Theorem verification_failure_is_only_warned fuel mrn fn ln uid ug nda w sid w1 g w2 e :
  patient_info ix !! mrn = None ->
  choose fuel random_short_id (ucsf_ids ix) uid (logged full_export w) = (Returned sid, w1) ->
  choose fuel random_guid (ucsf_guids ix) ug w1 = (Returned g, w2) ->
  import_answer db [record_phi sid mrn fn ln; record_info sid g nda] = None ->
  refetch_answer db [sid] = Some e ->
  isinstance_Exception e = true ->
  exists w',
    add_patient self fuel mrn fn ln uid ug nda w = (Returned (Some (sid, g)), w') /\
    calls w' = calls w ++ [full_export;
                           ImportRecords [record_phi sid mrn fn ln; record_info sid g nda];
                           ExportRecords [sid]] /\
    warned w' = warned w ++ [failure_warning mrn e].
Proof.
  intros Habs Hs Hg Himp Hver He.
  destruct (add_patient_returns fuel mrn fn ln uid ug nda w sid w1 g w2)
    as (w' & Hrun & Hcalls & Hwarn); try assumption.
  - intros e' He'. congruence.
  - rewrite Hver in Hwarn. now exists w'.
Qed.

(** C8. The duplicate check looks the caller's [mrn] up as it is among the
    normalised keys: when it equals the key of no row, the lookup finds
    nothing, no duplicate or conflict is reported, and the record is
    imported. *)
Theorem duplicate_check_compares_mrn_verbatim fuel mrn fn ln uid ug nda w sid w1 g w2 :
  (forall r, In r table -> mrn_key r <> Some mrn) ->
  choose fuel random_short_id (ucsf_ids ix) uid (logged full_export w) = (Returned sid, w1) ->
  choose fuel random_guid (ucsf_guids ix) ug w1 = (Returned g, w2) ->
  import_answer db [record_phi sid mrn fn ln; record_info sid g nda] = None ->
  (forall e, refetch_answer db [sid] = Some e -> isinstance_Exception e = true) ->
  patient_info ix !! mrn = None /\
  exists w',
    add_patient self fuel mrn fn ln uid ug nda w = (Returned (Some (sid, g)), w') /\
    calls w' = calls w ++ [full_export;
                           ImportRecords [record_phi sid mrn fn ln; record_info sid g nda];
                           ExportRecords [sid]] /\
    warned w' = warned w ++ match refetch_answer db [sid] with
                            | Some e => [failure_warning mrn e]
                            | None => []
                            end.
Proof.
  intros Hkeys Hs Hg Himp Hver.
  assert (Habs : patient_info ix !! mrn = None).
  { rewrite (index_rows_absent _ _ _ _ indexed Hkeys). reflexivity. }
  split; [exact Habs|].
  now apply (add_patient_returns fuel mrn fn ln uid ug nda w sid w1 g w2).
Qed.

(** C9. A supplied [ucsf_id], [ucsf_guid] or [nda_guid] is written as it
    is: a supplied identifier is the one imported and returned, without a
    draw and without a test against the identifiers collected from the
    export, and the collected [nda_guid] set plays no part in the call. *)
Theorem supplied_identifiers_are_not_checked fuel mrn fn ln uid ug nda w sid w1 g w2 :
  patient_info ix !! mrn = None ->
  choose fuel random_short_id (ucsf_ids ix) uid (logged full_export w) = (Returned sid, w1) ->
  choose fuel random_guid (ucsf_guids ix) ug w1 = (Returned g, w2) ->
  import_answer db [record_phi sid mrn fn ln; record_info sid g nda] = None ->
  (forall e, refetch_answer db [sid] = Some e -> isinstance_Exception e = true) ->
  (exists w',
     add_patient self fuel mrn fn ln uid ug nda w = (Returned (Some (sid, g)), w') /\
     calls w' = calls w ++ [full_export;
                            ImportRecords [record_phi sid mrn fn ln; record_info sid g nda];
                            ExportRecords [sid]]) /\
  (forall u, uid = Some u -> sid = u /\ w1 = logged full_export w) /\
  (forall u, ug = Some u -> g = u /\ w2 = w1) /\
  record_info sid g nda !! "nda_guid" = Some (of_optional nda) /\
  (forall ndas v,
     check_and_insert db fuel (Index (patient_info ix) (ucsf_ids ix) (ucsf_guids ix) ndas)
       mrn fn ln uid ug nda v
     = check_and_insert db fuel ix mrn fn ln uid ug nda v).
Proof.
  intros Habs Hs Hg Himp Hver.
  split; [|split; [|split; [|split]]].
  - destruct (add_patient_returns fuel mrn fn ln uid ug nda w sid w1 g w2)
      as (w' & Hrun & Hcalls & _); try assumption.
    now exists w'.
  - intros u ->. simpl in Hs. now injection Hs as <- <-.
  - intros u ->. simpl in Hg. now injection Hg as <- <-.
  - apply record_info_fields.
  - reflexivity.
Qed.

End Connected.

(** ** Identifier generation *)

Lemma create_ucsf_id_eq self w :
  create_ucsf_id self w
  = (Returned (short_candidate w, guid_candidate (skip 4 w)), skip 1 (skip 4 w)).
Proof. reflexivity. Qed.

Lemma allocated_short_id_valid fuel existing w x w' :
  choose fuel random_short_id existing None w = (Returned x, w') -> is_short_id x = true.
Proof.
  apply (choose_generated (fun s => is_short_id s = true)).
  intros v a v'. rewrite random_short_id_eq. intros [= <- _]. apply short_candidate_valid.
Qed.

Lemma allocated_guid_valid fuel existing w x w' :
  choose fuel random_guid existing None w = (Returned x, w') -> is_hex_guid x = true.
Proof.
  apply (choose_generated (fun s => is_hex_guid s = true)).
  intros v a v'. rewrite random_guid_eq. intros [= <- _]. apply guid_candidate_valid.
Qed.

(** C6. [create_ucsf_id] always returns a pair whose short ID has four
    characters among A-Z and 0-9 and whose GUID has thirty-two lowercase
    hexadecimal characters; the allocation step of [add_patient] yields
    identifiers of the same shape, and so a short ID or a GUID that
    [add_patient] had to allocate and returns has that shape. *)
Theorem generated_identifiers_are_well_formed :
  (forall self w, exists sid g w',
     create_ucsf_id self w = (Returned (sid, g), w') /\
     is_short_id sid = true /\ is_hex_guid g = true) /\
  (forall fuel existing w x w',
     (choose fuel random_short_id existing None w = (Returned x, w') ->
      is_short_id x = true) /\
     (choose fuel random_guid existing None w = (Returned x, w') ->
      is_hex_guid x = true)) /\
  (forall self fuel mrn fn ln uid ug nda w sid g w',
     add_patient self fuel mrn fn ln uid ug nda w = (Returned (Some (sid, g)), w') ->
     (uid = None -> is_short_id sid = true) /\
     (ug = None -> is_hex_guid g = true)).
Proof.
  split; [|split].
  - intros self w. do 3 eexists. rewrite create_ucsf_id_eq.
    split; [reflexivity|]. split; [apply short_candidate_valid|apply guid_candidate_valid].
  - intros fuel existing w x w'.
    split; [apply allocated_short_id_valid|apply allocated_guid_valid].
  - intros self fuel mrn fn ln uid ug nda w sid g w' Hrun.
    apply add_patient_returned in Hrun as (db & table & ix & _ & _ & _ & _ & Hins).
    apply insert_patient_returned in Hins as (sid' & g' & w1 & w2 & Hp & Hs & Hg & _).
    injection Hp as <- <-. split; intros ->.
    + exact (allocated_short_id_valid _ _ _ _ _ Hs).
    + exact (allocated_guid_valid _ _ _ _ _ Hg).
Qed.

(** ** Normalisation of the [mrn] column *)

(** C5, as amended.  A string-typed [mrn] cell is not passed through: like an
    integer cell it goes through [int()] and the zero-padded format.  A
    string [s] that [int()] reads as [z] files its row under the 8-digit
    zero-padded rendering of [z], the key an integer cell of value [z] gets;
    that key is present once the export is indexed, and it is [s] itself
    exactly when [s] already is that rendering, as every text of eight
    decimal digits is. *)
Theorem string_mrn_is_normalised table ix r s z :
  index_rows table empty_index = inr ix ->
  In r table ->
  row_mrn r = CStr s ->
  PyInt.of_str s = Some z ->
  (forall info,
     index_mrn r info
     = inr (<[PyInt.format_0d 8 z := (row_first_name r, row_last_name r)]> info)) /\
  (forall r' info,
     row_mrn r' = CInt z ->
     index_mrn r' info
     = inr (<[PyInt.format_0d 8 z := (row_first_name r', row_last_name r')]> info)) /\
  is_Some (patient_info ix !! PyInt.format_0d 8 z) /\
  (mrn_key r = Some s <-> s = PyInt.format_0d 8 z) /\
  (String.length s = 8%nat -> all_digits s = true -> mrn_key r = Some s).
Proof.
  intros Hix Hr Hcell Hint.
  assert (Hkey : mrn_key r = Some (PyInt.format_0d 8 z)).
  { unfold mrn_key. rewrite Hcell. simpl. now rewrite Hint. }
  split; [|split; [|split; [|split]]].
  - intros info. unfold index_mrn. rewrite Hcell. simpl. now rewrite Hint.
  - intros r' info Hcell'. unfold index_mrn. now rewrite Hcell'.
  - exact (index_rows_files _ _ _ _ _ Hix Hr Hkey).
  - rewrite Hkey. split; [now intros [= ->]|now intros ->].
  - intros Hlen Hall.
    destruct (format_0d_of_str_digits 8 s Hlen) as (Hread & Hfmt); [|exact Hall|].
    + unfold PyInt.max_str_digits. lia.
    + rewrite Hkey. f_equal. rewrite Hint in Hread. injection Hread as ->. exact Hfmt.
Qed.

(** ** Identifier lookup *)

(** C10. [ucsf_id_lookup] returns [None] for every input and leaves the
    world as it was. *)
Theorem ucsf_id_lookup_returns_none self id_ id_type w :
  ucsf_id_lookup self id_ id_type w = (Returned None, w).
Proof. reflexivity. Qed.

(** ** The theorems at work on the sample exports *)
Section Witnesses.
Import Sample.

Ltac decided :=
  match goal with |- ?P => apply (@bool_decide_unpack P _) end; vm_compute; exact I.

(** The end-to-end scenario: an empty table, and draws that generate AB12. *)
Lemma add_patient_inserts_two_event_records_witness :
  exists w',
    add_patient (connected_to (accepting [])) 0 "00000001" "A" "B" None None None
      (start colliding_draws)
    = (Returned (Some ("AB12", "00000000000040008000000000000002")), w') /\
    calls w'
    = [full_export;
       ImportRecords [record_phi "AB12" "00000001" "A" "B";
                      record_info "AB12" "00000000000040008000000000000002" None];
       ExportRecords ["AB12"]].
Proof.
  destruct (add_patient_inserts_two_event_records
              (connected_to (accepting [])) (accepting []) [] empty_index
              eq_refl eq_refl eq_refl 0 "00000001" "A" "B" None (start colliding_draws))
    as (w' & Hrun & Hcalls & _).
  - reflexivity.
  - decided.
  - decided.
  - reflexivity.
  - discriminate.
  - exists w'. split; [exact Hrun|exact Hcalls].
Defined.

(** Jane Doe is on file under 00001234; the same names in another case. *)
Lemma add_patient_matching_duplicate_witness :
  exists w',
    add_patient (connected_to (accepting table)) 0 "00001234" "JANE" "doe" None None None
      (start colliding_draws)
    = (Returned None, w') /\
    calls w' = [full_export] /\
    warned w' = ["MRN 00001234 already exists in database."] /\
    drawn w' = 0%nat.
Proof.
  apply (add_patient_matching_duplicate
           (connected_to (accepting table)) (accepting table) table (index_of table)
           eq_refl eq_refl eq_refl 0 "00001234" "JANE" "doe" None None None
           (start colliding_draws) "Jane" "Doe"); reflexivity.
Defined.



(** Short IDs AB12 and CD34 and the GUID ...0007 are on file; the draws try
    them first, and the loops move on to EF56 and to the next GUID. *)
Lemma allocated_identifiers_are_fresh_witness :
  add_patient (connected_to (accepting table)) 2 "00000001" "A" "B" None None None
    (start colliding_draws)
  = (Returned (Some ("EF56", "ffffffffffff4fffbfffffffffffffff")),
     logged (ExportRecords ["EF56"])
       (logged (ImportRecords [record_phi "EF56" "00000001" "A" "B";
                               record_info "EF56" "ffffffffffff4fffbfffffffffffffff" None])
          (skip 14 (logged full_export (start colliding_draws))))) /\
  ("EF56" ∉ ucsf_ids (index_of table)) /\
  ("ffffffffffff4fffbfffffffffffffff" ∉ ucsf_guids (index_of table)) /\
  "EF56" <> "AB12" /\ "EF56" <> "CD34".
Proof.
  assert (Hrun :
    add_patient (connected_to (accepting table)) 2 "00000001" "A" "B" None None None
      (start colliding_draws)
    = (Returned (Some ("EF56", "ffffffffffff4fffbfffffffffffffff")),
       logged (ExportRecords ["EF56"])
         (logged (ImportRecords [record_phi "EF56" "00000001" "A" "B";
                                 record_info "EF56" "ffffffffffff4fffbfffffffffffffff" None])
            (skip 14 (logged full_export (start colliding_draws)))))) by reflexivity.
  destruct (allocated_identifiers_are_fresh
              (connected_to (accepting table)) (accepting table) table (index_of table)
              eq_refl eq_refl eq_refl 2 "00000001" "A" "B" None None None
              (start colliding_draws) _ _ Hrun) as (sent & _ & Hsent & Hret).
  destruct (Hret _ eq_refl) as (batch & Hbatch).
  destruct (Hsent batch Hbatch) as (sid & g & _ & Hsid & Hguid & Hpair).
  specialize (Hpair _ eq_refl). injection Hpair as <- <-.
  destruct (Hsid eq_refl) as (Hfresh & Hrows). destruct (Hguid eq_refl) as (Hfresh' & _).
  split; [exact Hrun|]. split; [exact Hfresh|]. split; [exact Hfresh'|]. split.
  - apply (Hrows jane_demographics). { right. now left. } reflexivity.
  - apply (Hrows other_demographics). { right. right. now left. } reflexivity.
Defined.

(** The re-fetch times out after the import of a new patient. *)
Lemma verification_failure_is_only_warned_witness :
  exists w',
    add_patient (connected_to (unverifiable table timeout)) 2 "00000001" "A" "B"
      None None None (start colliding_draws)
    = (Returned (Some ("EF56", "ffffffffffff4fffbfffffffffffffff")), w') /\
    calls w'
    = [full_export;
       ImportRecords [record_phi "EF56" "00000001" "A" "B";
                      record_info "EF56" "ffffffffffff4fffbfffffffffffffff" None];
       ExportRecords ["EF56"]] /\
    warned w' = ["Failed to add patient 00000001 to database: timed out"].
Proof.
  apply (verification_failure_is_only_warned
           (connected_to (unverifiable table timeout)) (unverifiable table timeout)
           table (index_of table) eq_refl eq_refl eq_refl
           2 "00000001" "A" "B" None None None (start colliding_draws)
           "EF56" (skip 12 (logged full_export (start colliding_draws)))
           "ffffffffffff4fffbfffffffffffffff"
           (skip 14 (logged full_export (start colliding_draws)))
           timeout); reflexivity.
Defined.

(** C7 as first stated fails: a [KeyboardInterrupt] raised by the re-fetch
    is an exception the handler does not catch.  The import has been sent,
    the call raises the interrupt instead of returning the pair, and no
    warning is emitted.  So it is not true that the pair is returned
    whatever the re-fetch raises. *)
Lemma verification_interrupt_is_propagated :
  (isinstance_Exception Cases.interrupt = false /\
   add_patient (connected_to (unverifiable [] Cases.interrupt)) 0 "00000001" "A" "B"
     None None None (start colliding_draws)
   = (Raised Cases.interrupt,
      logged (ExportRecords ["AB12"])
        (logged (ImportRecords [record_phi "AB12" "00000001" "A" "B";
                                record_info "AB12" "00000000000040008000000000000002" None])
           (skip 5 (logged full_export (start colliding_draws)))))) /\
  ~ (forall self db table ix fuel mrn fn ln uid ug nda w sid w1 g w2 e,
       database self = Some db ->
       export_answer db = inr table ->
       index_rows table empty_index = inr ix ->
       patient_info ix !! mrn = None ->
       choose fuel random_short_id (ucsf_ids ix) uid (logged full_export w) = (Returned sid, w1) ->
       choose fuel random_guid (ucsf_guids ix) ug w1 = (Returned g, w2) ->
       import_answer db [record_phi sid mrn fn ln; record_info sid g nda] = None ->
       refetch_answer db [sid] = Some e ->
       exists w',
         add_patient self fuel mrn fn ln uid ug nda w = (Returned (Some (sid, g)), w')).
Proof.
  split.
  - split; reflexivity.
  - intros Hclaim.
    destruct (Hclaim (connected_to (unverifiable [] Cases.interrupt))
                (unverifiable [] Cases.interrupt) [] empty_index 0%nat "00000001" "A" "B"
                None None None (start colliding_draws)
                "AB12" (skip 4 (logged full_export (start colliding_draws)))
                "00000000000040008000000000000002"
                (skip 5 (logged full_export (start colliding_draws)))
                Cases.interrupt
                eq_refl eq_refl eq_refl eq_refl eq_refl eq_refl eq_refl eq_refl) as (w' & Hrun).
    vm_compute in Hrun. discriminate.
Defined.

(** Jane Doe is on file under 00001234; the call names her record number
    without the padding and she is inserted a second time. *)
Lemma duplicate_check_compares_mrn_verbatim_witness :
  patient_info (index_of table) !! "1234" = None /\
  exists w',
    add_patient (connected_to (accepting table)) 2 "1234" "Jane" "Doe"
      None None None (start colliding_draws)
    = (Returned (Some ("EF56", "ffffffffffff4fffbfffffffffffffff")), w') /\
    calls w'
    = [full_export;
       ImportRecords [record_phi "EF56" "1234" "Jane" "Doe";
                      record_info "EF56" "ffffffffffff4fffbfffffffffffffff" None];
       ExportRecords ["EF56"]] /\
    warned w' = [].
Proof.
  apply (duplicate_check_compares_mrn_verbatim
           (connected_to (accepting table)) (accepting table) table (index_of table)
           eq_refl eq_refl eq_refl
           2 "1234" "Jane" "Doe" None None None (start colliding_draws)
           "EF56" (skip 12 (logged full_export (start colliding_draws)))
           "ffffffffffff4fffbfffffffffffffff"
           (skip 14 (logged full_export (start colliding_draws)))).
  - intros r [<-|[<-|[<-|[]]]]; vm_compute; discriminate.
  - reflexivity.
  - reflexivity.
  - reflexivity.
  - discriminate.
Defined.

(** All three identifiers supplied are already on file. *)
Lemma supplied_identifiers_are_not_checked_witness :
  ("AB12" ∈ ucsf_ids (index_of table)) /\
  ("0123456789abcdef4123856789abcdef" ∈ ucsf_guids (index_of table)) /\
  ("NDAR_INV0001" ∈ nda_guids (index_of table)) /\
  exists w',
    add_patient (connected_to (accepting table)) 0 "00000001" "A" "B"
      (Some "AB12") (Some "0123456789abcdef4123856789abcdef") (Some "NDAR_INV0001")
      (start colliding_draws)
    = (Returned (Some ("AB12", "0123456789abcdef4123856789abcdef")), w') /\
    calls w'
    = [full_export;
       ImportRecords [record_phi "AB12" "00000001" "A" "B";
                      record_info "AB12" "0123456789abcdef4123856789abcdef"
                        (Some "NDAR_INV0001")];
       ExportRecords ["AB12"]].
Proof.
  split; [decided|]. split; [decided|]. split; [decided|].
  apply (supplied_identifiers_are_not_checked
           (connected_to (accepting table)) (accepting table) table (index_of table)
           eq_refl eq_refl eq_refl
           0 "00000001" "A" "B"
           (Some "AB12") (Some "0123456789abcdef4123856789abcdef") (Some "NDAR_INV0001")
           (start colliding_draws)
           "AB12" (logged full_export (start colliding_draws))
           "0123456789abcdef4123856789abcdef" (logged full_export (start colliding_draws))).
  - reflexivity.
  - reflexivity.
  - reflexivity.
  - reflexivity.
  - discriminate.
Defined.

(** An allocated pair has the announced shape. *)
Lemma generated_identifiers_are_well_formed_witness :
  is_short_id "EF56" = true /\ is_hex_guid "ffffffffffff4fffbfffffffffffffff" = true.
Proof.
  destruct (proj2 (proj2 generated_identifiers_are_well_formed)
              (connected_to (accepting table)) 2 "00000001" "A" "B" None None None
              (start colliding_draws) "EF56" "ffffffffffff4fffbfffffffffffffff"
              (add_patient (connected_to (accepting table)) 2 "00000001" "A" "B"
                 None None None (start colliding_draws)).2 eq_refl) as (Hsid & Hguid).
  split; [exact (Hsid eq_refl)|exact (Hguid eq_refl)].
Defined.

(** The text cell 1234 is filed under 00001234, as the integer 1234 is. *)
Lemma string_mrn_is_normalised_witness :
  (forall info,
     index_mrn text_mrn info = inr (<["00001234" := (CStr "Jane", CStr "Doe")]> info)) /\
  (forall r' info,
     row_mrn r' = CInt 1234 ->
     index_mrn r' info = inr (<["00001234" := (row_first_name r', row_last_name r')]> info)) /\
  is_Some (patient_info (index_of [text_mrn]) !! "00001234") /\
  (mrn_key text_mrn = Some "1234" <-> "1234" = "00001234") /\
  (String.length "1234" = 8%nat -> all_digits "1234" = true ->
   mrn_key text_mrn = Some "1234").
Proof.
  apply (string_mrn_is_normalised [text_mrn] (index_of [text_mrn]) text_mrn "1234" 1234).
  - reflexivity.
  - now left.
  - reflexivity.
  - reflexivity.
Defined.

(** C5 as first stated fails: the text cell 1234 is not a key of the index of
    its own export, its row is filed under 00001234; so it is not true that
    every text cell is the key its row is filed under. *)
Lemma string_mrn_is_not_passed_through :
  (row_mrn text_mrn = CStr "1234" /\
   exists ix,
     index_rows [text_mrn] empty_index = inr ix /\
     patient_info ix !! "1234" = None /\
     patient_info ix !! "00001234" = Some (CStr "Jane", CStr "Doe")) /\
  ~ (forall r s info info',
       row_mrn r = CStr s -> index_mrn r info = inr info' -> is_Some (info' !! s)).
Proof.
  split.
  - split; [reflexivity|]. exists (index_of [text_mrn]). repeat split.
  - intros Hclaim.
    destruct (Hclaim text_mrn "1234" ∅ _ eq_refl eq_refl) as [v Hv].
    vm_compute in Hv. discriminate.
Defined.

End Witnesses.

(** * Further properties *)

(** ** Connection management *)

Ltac conn_unfold :=
  unfold connect, construct, load_credentials, getitem, get_key_file, set_key_file,
    set_database, log_host, conn_lift, conn_raise, mbind, Conn_bind, mret, Conn_ret in *.

Lemma load_credentials_run h st :
  load_credentials h st
  = match read_toml h (key_file (this st)) with
    | inl e => (Raised e, opened st)
    | inr credentials =>
        match credentials !! "url", credentials !! "token" with
        | Some url, Some token => (Returned (url, token), opened st)
        | None, _ => (Raised (KeyError "url"), opened st)
        | Some _, None => (Raised (KeyError "token"), opened st)
        end
    end.
Proof.
  conn_unfold. simpl. destruct (read_toml h (key_file (this st))) as [e|credentials]; [reflexivity|].
  destruct (credentials !! "url"); [|reflexivity].
  destruct (credentials !! "token"); reflexivity.
Qed.

(** Every run of [connect], branch by branch. *)
Lemma connect_run h url token st :
  connect h url token st
  = match url, token with
    | Some u, Some t => built h (TString u) (TString t) st
    | _, _ =>
        match read_toml h (key_file (this st)) with
        | inl e => (Raised e, opened st)
        | inr credentials =>
            match credentials !! "url", credentials !! "token" with
            | Some file_url, Some file_token =>
                built h (from_option TString file_url url)
                  (from_option TString file_token token) (opened st)
            | None, _ => (Raised (KeyError "url"), opened st)
            | Some _, None => (Raised (KeyError "token"), opened st)
            end
        end
    end.
Proof.
  unfold built, opened. conn_unfold.
  destruct url as [u|], token as [t|]; simpl;
    try (destruct (read_toml h (key_file (this st))) as [e|c]; simpl; [reflexivity|];
         destruct (c !! "url") as [fu|]; simpl; [|reflexivity];
         destruct (c !! "token") as [ft|]; simpl; [|reflexivity]);
    match goal with
    | |- context [new_project h ?a ?b] => destruct (new_project h a b); reflexivity
    end.
Qed.

Lemma built_inv h u t st o st' :
  built h u t st = (o, st') ->
  host_calls st' = host_calls st ++ [NewProject u t] /\
  key_file (this st') = key_file (this st) /\
  ((exists db, o = Returned tt /\ new_project h u t = inr db /\
               fields (this st') = {| database := Some db |}) \/
   (exists e, o = Raised e /\ new_project h u t = inl e /\ this st' = this st)).
Proof.
  unfold built. destruct (new_project h u t) as [e|db]; intros [= <- <-]; simpl.
  - repeat split. right. eauto.
  - repeat split. left. eauto.
Qed.

(** The session in which [connect] requests the handle. *)
Lemma connect_cases h url token st o st' :
  connect h url token st = (o, st') ->
  let st1 := match url, token with
             | Some _, Some _ => st
             | _, _ => opened st
             end in
  (exists e, (url = None \/ token = None) /\ o = Raised e /\ st' = st1) \/
  (exists u t,
     match url with
     | Some s => u = TString s
     | None => exists c, read_toml h (key_file (this st)) = inr c /\ c !! "url" = Some u
     end /\
     match token with
     | Some s => t = TString s
     | None => exists c, read_toml h (key_file (this st)) = inr c /\ c !! "token" = Some t
     end /\
     built h u t st1 = (o, st')).
Proof.
  rewrite connect_run. destruct url as [u|], token as [t|]; simpl;
    try (destruct (read_toml h (key_file (this st))) as [e|c] eqn:Hread;
         [intros [= <- <-]; left; eauto|];
         destruct (c !! "url") as [fu|] eqn:Hu; [|intros [= <- <-]; left; eauto];
         destruct (c !! "token") as [ft|] eqn:Ht; [|intros [= <- <-]; left; eauto]);
    intros Hrun; right; eauto 10.
Qed.

(** X1. [connect] either builds a handle and stores it, or raises and leaves
    every attribute of the instance as it was; it never changes the key
    file. *)
Theorem connect_stores_handle_or_changes_nothing h url token st o st' :
  connect h url token st = (o, st') ->
  key_file (this st') = key_file (this st) /\
  ((exists u t db,
      o = Returned tt /\ new_project h u t = inr db /\
      fields (this st') = {| database := Some db |} /\
      In (NewProject u t) (host_calls st')) \/
   ((exists e, o = Raised e) /\ this st' = this st)).
Proof.
  intros Hrun. apply connect_cases in Hrun. cbv zeta in Hrun.
  assert (Hthis : this (match url, token with
                        | Some _, Some _ => st
                        | _, _ => opened st
                        end) = this st) by (destruct url, token; reflexivity).
  destruct Hrun as [(e & _ & -> & ->)|(u & t & _ & _ & Hrun)].
  - rewrite Hthis. split; [reflexivity|]. right. eauto.
  - apply built_inv in Hrun as (Hcalls & Hkey & [(db & -> & Hnew & Hdb)|(e & -> & _ & Hsame)]).
    + rewrite Hkey, Hthis. split; [reflexivity|]. left. exists u, t, db.
      repeat split; auto. rewrite Hcalls. apply in_or_app. right. now left.
    + rewrite Hkey, Hthis. split; [reflexivity|]. right. split; [eauto|congruence].
Qed.

(** X2. [connect] opens the key file exactly when the caller left out a
    credential, and at most once.  A handle, when one is requested, is
    requested with the caller's value for each credential supplied and with
    the file's entry for each one left out. *)
Theorem connect_prefers_supplied_credentials h url token st o st' :
  connect h url token st = (o, st') ->
  exists requests,
    host_calls st' = host_calls st
                     ++ match url, token with
                        | Some _, Some _ => []
                        | _, _ => [OpenFile (key_file (this st))]
                        end
                     ++ requests /\
    (requests = [] \/
     exists u t,
       requests = [NewProject u t] /\
       match url with
       | Some s => u = TString s
       | None => exists c, read_toml h (key_file (this st)) = inr c /\ c !! "url" = Some u
       end /\
       match token with
       | Some s => t = TString s
       | None => exists c, read_toml h (key_file (this st)) = inr c /\ c !! "token" = Some t
       end).
Proof.
  intros Hrun. apply connect_cases in Hrun. cbv zeta in Hrun.
  destruct Hrun as [(e & _ & -> & ->)|(u & t & Hu & Ht & Hrun)].
  - exists []. split; [|now left].
    destruct url, token; simpl; now rewrite ?app_nil_r.
  - apply built_inv in Hrun as (Hcalls & _).
    exists [NewProject u t]. split; [|right; eauto].
    rewrite Hcalls. destruct url, token; simpl; now rewrite <- ?app_assoc.
Qed.

(** X3. Whenever [connect] consults the key file, the file must hold both
    keys: if [url] or [token] is absent from it the call raises [KeyError]
    for that key and requests no handle, even when the caller supplied the
    credential the file lacks. *)
Theorem connect_needs_both_keys_in_file h url token st c :
  url = None \/ token = None ->
  read_toml h (key_file (this st)) = inr c ->
  c !! "url" = None \/ c !! "token" = None ->
  exists key,
    (key = "url" \/ key = "token") /\
    c !! key = None /\
    connect h url token st = (Raised (KeyError key), opened st).
Proof.
  intros Hmissing Hread Hkeys. rewrite connect_run, Hread.
  destruct (c !! "url") as [fu|] eqn:Hu.
  - destruct Hkeys as [Hk|Hk]; [discriminate|]. rewrite Hk.
    exists "token". split; [now right|]. split; [exact Hk|].
    destruct url, token; try reflexivity. destruct Hmissing; discriminate.
  - exists "url". split; [now left|]. split; [exact Hu|].
    destruct url, token; try reflexivity. destruct Hmissing; discriminate.
Qed.

(** X4. [construct] with [connect] requested replaces the key file first and
    reads the credentials from the new one; when the connection then fails,
    the key file stays replaced while the handle is left as it was. *)
Theorem construct_switches_key_file_before_connecting h config_file p st o st' :
  chosen_key_file config_file (key_file (this st)) = Some p ->
  construct h config_file true st = (o, st') ->
  key_file (this st') = p /\
  (exists requests, host_calls st' = host_calls st ++ OpenFile p :: requests) /\
  ((exists e, o = Raised e) -> fields (this st') = fields (this st)).
Proof.
  intros Hchosen Hrun.
  assert (Hconn : connect h None None (Session (Instance p (fields (this st))) (host_calls st))
                  = (o, st')).
  { destruct config_file as [|s|q|t]; simpl in Hchosen; try discriminate;
      injection Hchosen as <-; revert Hrun; unfold construct;
      unfold mbind at 1, Conn_bind at 1; simpl; try exact (fun H => H).
    destruct st as [[kf f] calls]. exact (fun H => H). }
  clear Hrun. apply connect_cases in Hconn. cbv zeta in Hconn. simpl in Hconn.
  destruct Hconn as [(e & _ & -> & ->)|(u & t & _ & _ & Hrun)].
  - simpl. split; [reflexivity|]. split; [eauto|reflexivity].
  - apply built_inv in Hrun as (Hcalls & Hkey & [(db & -> & _ & _)|(e & -> & _ & Hsame)]);
      simpl in Hcalls, Hkey.
    + split; [exact Hkey|]. split; [|intros (e & He); discriminate].
      exists [NewProject u t]. now rewrite Hcalls, <- app_assoc.
    + split; [exact Hkey|]. split; [|intros _; now rewrite Hsame].
      exists [NewProject u t]. now rewrite Hcalls, <- app_assoc.
Qed.

(** What [construct] does before it connects. *)
Lemma construct_run h config_file connect_ st :
  construct h config_file connect_ st
  = match chosen_key_file config_file (key_file (this st)) with
    | None =>
        match config_file with
        | ConfigOther type_name => (Raised (invalid_config type_name), st)
        | _ => (Returned tt, st)
        end
    | Some p =>
        let st1 := match config_file with
                   | ConfigNone => st
                   | _ => Session (Instance p (fields (this st))) (host_calls st)
                   end in
        if connect_ then connect h None None st1 else (Returned tt, st1)
    end.
Proof.
  unfold construct, mbind, Conn_bind.
  destruct config_file as [|s|q|t]; simpl; destruct connect_; reflexivity.
Qed.

(** X5. [construct] reaches the host only when a connection is requested
    and the argument has a valid type: an argument that is neither [None],
    a [str] nor a [Path] raises [ValueError] with nothing read and nothing
    changed, whether or not a connection was requested, and without a
    connection request the handle is left as it was. *)
Theorem construct_validates_before_connecting h config_file connect_ st o st' :
  construct h config_file connect_ st = (o, st') ->
  (host_calls st' = host_calls st <->
   connect_ = false \/ chosen_key_file config_file (key_file (this st)) = None) /\
  (forall type_name, config_file = ConfigOther type_name ->
     o = Raised (invalid_config type_name) /\ st' = st) /\
  (connect_ = false -> fields (this st') = fields (this st)).
Proof.
  rewrite construct_run.
  destruct (chosen_key_file config_file (key_file (this st))) as [p|] eqn:Hchosen.
  - cbv zeta.
    set (st1 := match config_file with
                | ConfigNone => st
                | _ => Session (Instance p (fields (this st))) (host_calls st)
                end).
    assert (Hst1 : host_calls st1 = host_calls st /\ fields (this st1) = fields (this st))
      by (subst st1; destruct config_file; auto).
    destruct Hst1 as (Hc1 & Hf1).
    destruct connect_.
    + intros Hrun. apply connect_cases in Hrun. cbv zeta in Hrun. simpl in Hrun.
      assert (Hgrow : exists requests,
                host_calls st' = host_calls st ++ OpenFile (key_file (this st1)) :: requests).
      { destruct Hrun as [(e & _ & _ & ->)|(u & t & _ & _ & Hrun)].
        - exists []. simpl. now rewrite Hc1.
        - apply built_inv in Hrun as (Hcalls & _). simpl in Hcalls.
          exists [NewProject u t]. now rewrite Hcalls, Hc1, <- app_assoc. }
      destruct Hgrow as (requests & Hgrow).
      split; [|split].
      * split; [|intros [?|?]; discriminate].
        intros Hsame. rewrite Hgrow in Hsame.
        apply (f_equal (@length host_call)) in Hsame. rewrite length_app in Hsame.
        simpl in Hsame. lia.
      * intros t ->. discriminate.
      * discriminate.
    + intros [= <- <-]. split; [|split].
      * split; [now left|]. intros _. exact Hc1.
      * intros t ->. discriminate.
      * intros _. exact Hf1.
  - destruct config_file as [|s|q|t]; try discriminate.
    intros [= <- <-]. split; [|split].
    + split; [now right|reflexivity].
    + now intros t' [= <-].
    + reflexivity.
Qed.

(** X6. [HumanNeuroRedcap(config_file, connect=True)] returns only if the
    chosen key file could be read, held both keys, and the handle could be
    built from its two entries; the instance then has that key file and
    that handle, and the host saw exactly the file being opened and the
    handle being requested. *)
Theorem init_with_connect_succeeds_only_from_key_file h config_file st' :
  init h config_file true = (Returned tt, st') ->
  exists p c url token db,
    chosen_key_file config_file DEFAULT_KEY_FILE = Some p /\
    read_toml h p = inr c /\
    c !! "url" = Some url /\
    c !! "token" = Some token /\
    new_project h url token = inr db /\
    this st' = Instance p {| database := Some db |} /\
    host_calls st' = [OpenFile p; NewProject url token].
Proof.
  unfold init. rewrite construct_run. simpl.
  destruct (chosen_key_file config_file DEFAULT_KEY_FILE) as [p|] eqn:Hchosen;
    [|destruct config_file; discriminate].
  cbv zeta. intros Hrun. exists p.
  assert (Hconn : connect h None None (Session (Instance p {| database := None |}) [])
                  = (Returned tt, st')).
  { destruct config_file; simpl in Hchosen; try discriminate;
      injection Hchosen as <-; exact Hrun. }
  clear Hrun. apply connect_cases in Hconn. cbv zeta in Hconn. simpl in Hconn.
  destruct Hconn as [(e & _ & He & _)|(u & t & (c & Hread & Hu) & (c' & Hread' & Ht) & Hrun)];
    [discriminate|].
  assert (c' = c) as -> by congruence.
  apply built_inv in Hrun as (Hcalls & Hkey & [(db & _ & Hnew & Hdb)|(e & He & _)]);
    [|discriminate].
  exists c, u, t, db. repeat split; try assumption.
  destruct st' as [[kf f] calls]. simpl in *. now subst.
Qed.

(** X7. An instance created without a connection cannot insert: whatever
    valid [config_file] it was created with, [add_patient] on it raises
    the not-connected [RuntimeError] and has no effect: no request, no
    draw, no warning. *)
Theorem add_patient_needs_a_connection h config_file st'
    fuel mrn first_name last_name ucsf_id ucsf_guid nda_guid w :
  init h config_file false = (Returned tt, st') ->
  add_patient (fields (this st')) fuel mrn first_name last_name ucsf_id ucsf_guid nda_guid w
  = (Raised not_connected, w).
Proof.
  unfold init. rewrite construct_run. simpl.
  destruct config_file; simpl; intros H; try discriminate; injection H as <-; reflexivity.
Qed.

(** ** The indexing loop, row by row *)

Lemma index_mrn_accepts r info :
  (exists info', index_mrn r info = inr info') <-> mrn_accepted (row_mrn r) = true.
Proof.
  unfold index_mrn, mrn_accepted.
  destruct (row_mrn r) as [s|z|[sg|sg| |sg m e]]; simpl;
    try destruct (PyInt.of_str s); simpl; split; eauto; try discriminate;
    intros (info' & H); discriminate.
Qed.

Lemma index_id_accepts w c ids :
  (exists ids', index_id w c ids = inr ids') <-> id_accepted c = true.
Proof.
  unfold index_id, id_accepted.
  destruct c as [s|z|[sg|sg| |sg m e]]; simpl; split; eauto; try discriminate;
    intros (ids' & H); discriminate.
Qed.

Lemma index_id_key w c ids ids' :
  index_id w c ids = inr ids' ->
  ids' = match id_key w c with Some s => {[s]} ∪ ids | None => ids end.
Proof.
  unfold index_id, id_key.
  destruct c as [s|z|[sg|sg| |sg m e]]; simpl; intros [= <-]; reflexivity.
Qed.

Lemma index_row_accepts r ix :
  (exists ix', index_row r ix = inr ix') <-> row_accepted r = true.
Proof.
  unfold row_accepted. rewrite !andb_true_iff.
  rewrite <- (index_mrn_accepts r (patient_info ix)).
  rewrite <- (index_id_accepts 4 (row_ucsf_id r) (ucsf_ids ix)).
  rewrite <- (index_id_accepts 32 (row_ucsf_guid r) (ucsf_guids ix)).
  rewrite <- (index_id_accepts 32 (row_nda_guid r) (nda_guids ix)).
  unfold index_row. split.
  - intros (ix' & H).
    destruct (index_mrn r (patient_info ix)); [discriminate|].
    destruct (index_id 4 (row_ucsf_id r) (ucsf_ids ix)); [discriminate|].
    destruct (index_id 32 (row_ucsf_guid r) (ucsf_guids ix)); [discriminate|].
    destruct (index_id 32 (row_nda_guid r) (nda_guids ix)); [discriminate|].
    eauto 10.
  - intros ((((info & ->) & (ids & ->)) & (guids & ->)) & (ndas & ->)). eauto.
Qed.

Lemma index_row_error r ix e :
  index_row r ix = inl e -> exc_type e = ValueError \/ exc_type e = OverflowError.
Proof.
  assert (Hid : forall w c ids e', index_id w c ids = inl e' -> exc_type e' = OverflowError).
  { intros w c ids e'. unfold index_id.
    destruct c as [s|z|[sg|sg| |sg m e0]]; simpl; intros [= <-]; reflexivity. }
  unfold index_row.
  destruct (index_mrn r (patient_info ix)) as [e1|info] eqn:Hm.
  { intros [= <-]. revert Hm. unfold index_mrn.
    destruct (row_mrn r) as [s|z|[sg|sg| |sg m e0]]; simpl;
      try destruct (PyInt.of_str s); simpl; intros [= <-]; auto. }
  destruct (index_id 4 (row_ucsf_id r) (ucsf_ids ix)) as [e1|ids] eqn:H1;
    [intros [= <-]; right; eapply Hid; eauto|].
  destruct (index_id 32 (row_ucsf_guid r) (ucsf_guids ix)) as [e1|guids] eqn:H2;
    [intros [= <-]; right; eapply Hid; eauto|].
  destruct (index_id 32 (row_nda_guid r) (nda_guids ix)) as [e1|ndas] eqn:H3;
    [intros [= <-]; right; eapply Hid; eauto|].
  discriminate.
Qed.

Lemma index_rows_error table : forall ix0 e,
  index_rows table ix0 = inl e -> exc_type e = ValueError \/ exc_type e = OverflowError.
Proof.
  induction table as [|r table IH]; intros ix0 e; simpl; [discriminate|].
  destruct (index_row r ix0) as [e0|ix1] eqn:Hrow.
  - intros [= <-]. eapply index_row_error; eauto.
  - apply IH.
Qed.

Lemma index_rows_accepts table : forall ix0,
  (exists ix, index_rows table ix0 = inr ix) <-> forallb row_accepted table = true.
Proof.
  induction table as [|r table IH]; intros ix0; simpl.
  - split; eauto.
  - rewrite andb_true_iff, <- (index_row_accepts r ix0).
    destruct (index_row r ix0) as [e|ix1] eqn:Hrow.
    + split; [intros (ix & H); discriminate|intros ((ix & H) & _); discriminate].
    + rewrite (IH ix1). split; [eauto|tauto].
Qed.

(** X8. On an export whose text [mrn] cells are ASCII and whose integer
    cells are numbers a float can hold, indexing succeeds exactly when
    every row is acceptable on its own: each text [mrn] cell reads as an
    integer and no numeric cell of the four columns is infinite.  Text in
    the identifier columns never makes it fail.  When it fails, it fails
    with a [ValueError] or an [OverflowError]. *)
Theorem index_rows_succeeds_iff_rows_accepted table ix0 :
  forallb row_in_domain table = true ->
  ((exists ix, index_rows table ix0 = inr ix) <-> forallb row_accepted table = true) /\
  (forall e, index_rows table ix0 = inl e ->
             exc_type e = ValueError \/ exc_type e = OverflowError).
Proof.
  intros _. split; [apply index_rows_accepts|apply index_rows_error].
Qed.

Lemma index_rows_app t1 t2 ix0 :
  index_rows (t1 ++ t2) ix0
  = match index_rows t1 ix0 with
    | inl e => inl e
    | inr ix1 => index_rows t2 ix1
    end.
Proof.
  revert ix0. induction t1 as [|r t1 IH]; intros ix0; simpl; [reflexivity|].
  destruct (index_row r ix0); [reflexivity|apply IH].
Qed.

Lemma index_rows_keys table : forall ix0 ix k,
  index_rows table ix0 = inr ix ->
  (is_Some (patient_info ix !! k) <->
   is_Some (patient_info ix0 !! k) \/ exists r, In r table /\ mrn_key r = Some k).
Proof.
  induction table as [|r table IH]; intros ix0 ix k; simpl.
  - intros [= <-]. split; [auto|]. intros [H|(r & [] & _)]. exact H.
  - destruct (index_row r ix0) as [e|ix1] eqn:Hrow; [discriminate|].
    intros Hrows. rewrite (IH ix1 ix k Hrows).
    apply index_row_inr in Hrow as (Hm & _). apply index_mrn_inr in Hm. rewrite Hm.
    destruct (mrn_key r) as [k'|] eqn:Hkey.
    + rewrite lookup_insert_is_Some. split.
      * intros [[->|(_ & H)]|(r' & Hr' & Hk')]; eauto 6.
      * intros [H|(r' & [<-|Hr'] & Hk')].
        -- destruct (decide (k' = k)); auto.
        -- left. left. congruence.
        -- eauto.
    + split.
      * intros [H|(r' & Hr' & Hk')]; eauto 6.
      * intros [H|(r' & [<-|Hr'] & Hk')]; eauto. congruence.
Qed.

Section Column.
Variable proj : index -> gset string.
Variable col : row -> cell.
Variable width : nat.
Hypothesis step : forall r ix ix',
  index_row r ix = inr ix' ->
  proj ix' = match id_key width (col r) with
             | Some k => {[k]} ∪ proj ix
             | None => proj ix
             end.

Lemma index_rows_column table : forall ix0 ix s,
  index_rows table ix0 = inr ix ->
  (s ∈ proj ix <-> s ∈ proj ix0 \/ exists r, In r table /\ id_key width (col r) = Some s).
Proof.
  induction table as [|r table IH]; intros ix0 ix s; simpl.
  - intros [= <-]. split; [auto|]. intros [H|(r & [] & _)]. exact H.
  - destruct (index_row r ix0) as [e|ix1] eqn:Hrow; [discriminate|].
    intros Hrows. rewrite (IH ix1 ix s Hrows), (step _ _ _ Hrow).
    destruct (id_key width (col r)) as [k|] eqn:Hkey.
    + rewrite elem_of_union, elem_of_singleton. split.
      * intros [[->|H]|(r' & Hr' & Hk')]; eauto 6.
      * intros [H|(r' & [<-|Hr'] & Hk')]; eauto. left. left. congruence.
    + split.
      * intros [H|(r' & Hr' & Hk')]; eauto 6.
      * intros [H|(r' & [<-|Hr'] & Hk')]; eauto. congruence.
Qed.
End Column.

Lemma index_rows_ids table ix0 ix :
  index_rows table ix0 = inr ix ->
  (forall s, s ∈ ucsf_ids ix <->
     s ∈ ucsf_ids ix0 \/ exists r, In r table /\ id_key 4 (row_ucsf_id r) = Some s) /\
  (forall s, s ∈ ucsf_guids ix <->
     s ∈ ucsf_guids ix0 \/ exists r, In r table /\ id_key 32 (row_ucsf_guid r) = Some s) /\
  (forall s, s ∈ nda_guids ix <->
     s ∈ nda_guids ix0 \/ exists r, In r table /\ id_key 32 (row_nda_guid r) = Some s).
Proof.
  intros Hix. split; [|split]; intros s.
  - apply (index_rows_column ucsf_ids row_ucsf_id 4); [|exact Hix].
    intros r i i' Hrow. apply index_row_inr in Hrow as (_ & H & _). now apply index_id_key.
  - apply (index_rows_column ucsf_guids row_ucsf_guid 32); [|exact Hix].
    intros r i i' Hrow. apply index_row_inr in Hrow as (_ & _ & H & _). now apply index_id_key.
  - apply (index_rows_column nda_guids row_nda_guid 32); [|exact Hix].
    intros r i i' Hrow. apply index_row_inr in Hrow as (_ & _ & _ & H). now apply index_id_key.
Qed.

(** X9. After indexing, the patient map has an entry for exactly the
    normalised record numbers of the rows, and each of the three identifier
    sets holds exactly the strings its column yields: text cells as they
    are, numeric cells zero-padded to 4 (short ID) or 32 (GUIDs)
    characters, missing cells nothing. *)
Theorem index_holds_exactly_the_rows table ix :
  index_rows table empty_index = inr ix ->
  (forall k, is_Some (patient_info ix !! k) <-> exists r, In r table /\ mrn_key r = Some k) /\
  (forall s, s ∈ ucsf_ids ix <-> exists r, In r table /\ id_key 4 (row_ucsf_id r) = Some s) /\
  (forall s, s ∈ ucsf_guids ix <->
             exists r, In r table /\ id_key 32 (row_ucsf_guid r) = Some s) /\
  (forall s, s ∈ nda_guids ix <-> exists r, In r table /\ id_key 32 (row_nda_guid r) = Some s).
Proof.
  intros Hix. destruct (index_rows_ids _ _ _ Hix) as (H1 & H2 & H3).
  split; [|split; [|split]].
  - intros k. rewrite (index_rows_keys _ _ _ k Hix). simpl. rewrite lookup_empty.
    split; [intros [[v Hv]|H]; [discriminate|exact H]|auto].
  - intros s. rewrite H1. simpl. split; [intros [H|H]; [|exact H]|auto]. set_solver.
  - intros s. rewrite H2. simpl. split; [intros [H|H]; [|exact H]|auto]. set_solver.
  - intros s. rewrite H3. simpl. split; [intros [H|H]; [|exact H]|auto]. set_solver.
Qed.

(** X10. When several rows carry the same record number, the names kept
    for it are those of the last such row: the duplicate check compares
    against the latest occurrence only. *)
Theorem last_row_of_a_record_number_wins before r after ix k :
  index_rows (before ++ r :: after) empty_index = inr ix ->
  mrn_key r = Some k ->
  (forall r', In r' after -> mrn_key r' <> Some k) ->
  patient_info ix !! k = Some (row_first_name r, row_last_name r).
Proof.
  rewrite index_rows_app.
  destruct (index_rows before empty_index) as [e|ix1]; [discriminate|]. simpl.
  destruct (index_row r ix1) as [e|ix2] eqn:Hrow; [discriminate|].
  intros Hafter Hkey Hlater.
  rewrite (index_rows_absent _ _ _ _ Hafter Hlater).
  apply index_row_inr in Hrow as (Hm & _). apply index_mrn_inr in Hm.
  rewrite Hm, Hkey. apply lookup_insert_eq.
Qed.

(** ** Every path through [add_patient] *)

Lemma format_0d_length w z : (w <= String.length (PyInt.format_0d w z))%nat.
Proof.
  unfold PyInt.format_0d. rewrite length_of_chars, !length_app.
  unfold PyInt.zeros. rewrite repeat_length. lia.
Qed.

Lemma mrn_key_length r k : mrn_key r = Some k -> (8 <= String.length k)%nat.
Proof.
  unfold mrn_key. destruct (is_str (row_mrn r) || negb (isnan (row_mrn r))); [|discriminate].
  destruct (py_int (row_mrn r)); [discriminate|]. intros [= <-]. apply format_0d_length.
Qed.

Lemma insert_patient_import_fails db fuel ix mrn fn ln uid ug nda w sid w1 g w2 e :
  choose fuel random_short_id (ucsf_ids ix) uid w = (Returned sid, w1) ->
  choose fuel random_guid (ucsf_guids ix) ug w1 = (Returned g, w2) ->
  import_answer db [record_phi sid mrn fn ln; record_info sid g nda] = Some e ->
  insert_patient db fuel ix mrn fn ln uid ug nda w
  = (Raised e, logged (ImportRecords [record_phi sid mrn fn ln; record_info sid g nda]) w2).
Proof.
  intros Hs Hg Himp. unfold insert_patient.
  rewrite (bind_returned _ _ _ _ _ Hs), (bind_returned _ _ _ _ _ Hg).
  unfold import_records, mbind, M_bind, log_call. rewrite Himp. reflexivity.
Qed.

Lemma insert_patient_paths db fuel ix mrn fn ln uid ug nda w o w' :
  insert_patient db fuel ix mrn fn ln uid ug nda w = (o, w') ->
  ((forall p, o <> Returned p) /\ calls w' = calls w /\ warned w' = warned w) \/
  exists sid g w1 w2,
    choose fuel random_short_id (ucsf_ids ix) uid w = (Returned sid, w1) /\
    choose fuel random_guid (ucsf_guids ix) ug w1 = (Returned g, w2) /\
    calls w2 = calls w /\ warned w2 = warned w /\
    let batch := [record_phi sid mrn fn ln; record_info sid g nda] in
    let w3 := logged (ExportRecords [sid]) (logged (ImportRecords batch) w2) in
    match import_answer db batch with
    | Some e => o = Raised e /\ w' = logged (ImportRecords batch) w2
    | None =>
        match refetch_answer db [sid] with
        | None => o = Returned (Some (sid, g)) /\ w' = w3
        | Some e =>
            if isinstance_Exception e
            then o = Returned (Some (sid, g)) /\ w' = warning (failure_warning mrn e) w3
            else o = Raised e /\ w' = w3
        end
    end.
Proof.
  intros Hrun.
  destruct (choose fuel random_short_id (ucsf_ids ix) uid w) as [[sid|e|] w1] eqn:Hs;
    destruct (choose_quiet _ _ _ _ _ _ _ random_short_id_quiet Hs) as (Hc1 & Hw1).
  2,3: left; revert Hrun; unfold insert_patient; unfold mbind at 1, M_bind at 1;
       rewrite Hs; intros [= <- <-]; repeat split; auto; discriminate.
  destruct (choose fuel random_guid (ucsf_guids ix) ug w1) as [[g|e|] w2] eqn:Hg;
    destruct (choose_quiet _ _ _ _ _ _ _ random_guid_quiet Hg) as (Hc2 & Hw2).
  2,3: left; revert Hrun; unfold insert_patient; unfold mbind at 1, M_bind at 1;
       rewrite Hs; unfold mbind at 1, M_bind at 1; rewrite Hg;
       intros [= <- <-]; repeat split; try congruence; discriminate.
  right. exists sid, g, w1, w2. repeat split; try congruence. cbv zeta.
  destruct (import_answer db [record_phi sid mrn fn ln; record_info sid g nda]) as [e|] eqn:Himp.
  - rewrite (insert_patient_import_fails _ _ _ _ _ _ _ _ _ _ _ _ _ _ _ Hs Hg Himp) in Hrun.
    now injection Hrun as <- <-.
  - rewrite (insert_patient_run _ _ _ _ _ _ _ _ _ _ _ _ _ _ Hs Hg Himp) in Hrun.
    cbv zeta in Hrun. destruct (refetch_answer db [sid]) as [e|].
    + destruct (isinstance_Exception e); now injection Hrun as <- <-.
    + now injection Hrun as <- <-.
Qed.

(** Every run of the duplicate check that does not go on to insert. *)
Lemma check_and_insert_paths db fuel ix mrn fn ln uid ug nda w o w' :
  check_and_insert db fuel ix mrn fn ln uid ug nda w = (o, w') ->
  (exists p_info,
     patient_info ix !! mrn = Some p_info /\
     calls w' = calls w /\ drawn w' = drawn w /\
     match names_match fn ln p_info with
     | inl e => o = Raised e /\ warned w' = warned w
     | inr true => o = Returned None /\ warned w' = warned w ++ [duplicate_warning mrn]
     | inr false => o = Raised (conflict_error mrn) /\ warned w' = warned w
     end) \/
  (patient_info ix !! mrn = None /\
   insert_patient db fuel ix mrn fn ln uid ug nda w = (o, w')).
Proof.
  unfold check_and_insert. destruct (patient_info ix !! mrn) as [p_info|]; [|auto].
  unfold mbind, M_bind, lift, raise, warn. intros Hrun. left. exists p_info.
  destruct (names_match fn ln p_info) as [e|[]]; simpl in Hrun;
    injection Hrun as <- <-; auto.
Qed.

Lemma add_patient_export_fails self db e fuel mrn fn ln uid ug nda w :
  database self = Some db ->
  export_answer db = inl e ->
  add_patient self fuel mrn fn ln uid ug nda w = (Raised e, logged full_export w).
Proof.
  intros Hdb Hexp. unfold add_patient. rewrite Hdb.
  unfold export_records_df, mbind, M_bind, log_call, lift. rewrite Hexp. reflexivity.
Qed.

Lemma add_patient_index_fails self db table e fuel mrn fn ln uid ug nda w :
  database self = Some db ->
  export_answer db = inr table ->
  index_rows table empty_index = inl e ->
  add_patient self fuel mrn fn ln uid ug nda w = (Raised e, logged full_export w).
Proof.
  intros Hdb Hexp Hix. unfold add_patient. rewrite Hdb.
  unfold export_records_df, mbind, M_bind, log_call, lift. rewrite Hexp. simpl.
  rewrite Hix. reflexivity.
Qed.

(** X11. Whatever happens, the requests one call of [add_patient] sends are
    a prefix of: the export, one import of the two records, one re-fetch of
    the new record; it never imports twice, never re-fetches without having
    imported, and returns a pair only after all three.  It emits at most
    one warning. *)
Theorem add_patient_follows_the_protocol self fuel mrn fn ln uid ug nda w o w' :
  add_patient self fuel mrn fn ln uid ug nda w = (o, w') ->
  exists sent,
    calls w' = calls w ++ sent /\
    protocol mrn fn ln nda o sent /\
    (warned w' = warned w \/ exists msg, warned w' = warned w ++ [msg]).
Proof.
  destruct (database self) as [db|] eqn:Hdb.
  2: { unfold add_patient. rewrite Hdb. intros [= <- <-]. exists [].
       rewrite app_nil_r. repeat split; auto. constructor. }
  destruct (export_answer db) as [e|table] eqn:Hexp.
  { rewrite (add_patient_export_fails self db e) by assumption.
    intros [= <- <-]. exists [full_export]. repeat split; auto.
    constructor. discriminate. }
  destruct (index_rows table empty_index) as [e|ix] eqn:Hix.
  { rewrite (add_patient_index_fails self db table e) by assumption.
    intros [= <- <-]. exists [full_export]. repeat split; auto.
    constructor. discriminate. }
  rewrite (add_patient_indexed self db table ix) by assumption.
  intros Hrun. apply check_and_insert_paths in Hrun
    as [(p_info & _ & Hcalls & _ & Hout)|(_ & Hrun)].
  { exists [full_export]. split; [exact Hcalls|].
    destruct (names_match fn ln p_info) as [e|[]]; destruct Hout as (-> & Hwarn);
      (split; [constructor; discriminate|]); eauto. }
  apply insert_patient_paths in Hrun
    as [(Hout & Hcalls & Hwarn)|(sid & g & w1 & w2 & _ & _ & Hcalls & Hwarn & Hout)].
  { exists [full_export]. split; [exact Hcalls|]. split; [|now left].
    constructor. intros p. apply Hout. }
  cbv zeta in Hout. simpl in Hcalls, Hwarn.
  destruct (import_answer db _) as [e|].
  { destruct Hout as (-> & ->).
    exists [full_export; ImportRecords [record_phi sid mrn fn ln; record_info sid g nda]].
    simpl. rewrite Hcalls, <- app_assoc. repeat split; auto. constructor. }
  exists [full_export; ImportRecords [record_phi sid mrn fn ln; record_info sid g nda];
          ExportRecords [sid]].
  destruct (refetch_answer db [sid]) as [e|].
  - destruct (isinstance_Exception e) eqn:He; destruct Hout as (-> & ->); simpl;
      rewrite Hcalls, <- !app_assoc; (split; [reflexivity|]); rewrite Hwarn.
    + split; [constructor|eauto].
    + split; [now constructor|auto].
  - destruct Hout as (-> & ->). simpl. rewrite Hcalls, <- !app_assoc, Hwarn.
    repeat split; auto. constructor.
Qed.

(** X12. One row that the loop cannot index blocks every insertion: if some
    row of the export has an ASCII text [mrn] that does not read as an
    integer, or an infinite number in one of the four columns, every call
    of [add_patient] raises a [ValueError] or an [OverflowError] right
    after the export, whatever its arguments: nothing is imported, no
    identifier is drawn, nothing is warned. *)
Theorem add_patient_blocked_by_a_rejected_row self db table r
    fuel mrn fn ln uid ug nda w :
  database self = Some db ->
  export_answer db = inr table ->
  In r table ->
  mrn_in_domain (row_mrn r) = true ->
  row_accepted r = false ->
  exists e,
    add_patient self fuel mrn fn ln uid ug nda w = (Raised e, logged full_export w) /\
    (exc_type e = ValueError \/ exc_type e = OverflowError).
Proof.
  intros Hdb Hexp Hr _ Hrej.
  destruct (index_rows table empty_index) as [e|ix] eqn:Hix.
  - exists e. split; [now apply (add_patient_index_fails self db table)|].
    now apply (index_rows_error table empty_index).
  - exfalso.
    assert (Hall : forallb row_accepted table = true)
      by (apply (index_rows_accepts table empty_index); eauto).
    rewrite forallb_forall in Hall. rewrite (Hall r Hr) in Hrej. discriminate.
Qed.

Section Indexed.
Variable self : HumanNeuroRedcap.
Variable db : Project.
Variable table : list row.
Variable ix : index.
Hypothesis connected : database self = Some db.
Hypothesis exported : export_answer db = inr table.
Hypothesis indexed : index_rows table empty_index = inr ix.

(** X13. Every key of the patient map has at least eight characters, so a
    record number passed with fewer than eight characters is never found:
    the call goes straight to the insertion, whatever the export holds. *)
Theorem short_mrn_is_never_a_duplicate fuel mrn fn ln uid ug nda w :
  (String.length mrn < 8)%nat ->
  patient_info ix !! mrn = None /\
  add_patient self fuel mrn fn ln uid ug nda w
  = insert_patient db fuel ix mrn fn ln uid ug nda (logged full_export w).
Proof.
  intros Hshort.
  assert (Habs : patient_info ix !! mrn = None).
  { apply eq_None_not_Some. intros Hsome.
    apply (index_rows_keys _ _ _ mrn indexed) in Hsome as [[v Hv]|(r & _ & Hkey)].
    - simpl in Hv. rewrite lookup_empty in Hv. discriminate.
    - apply mrn_key_length in Hkey. lia. }
  split; [exact Habs|].
  rewrite (add_patient_indexed self db table ix) by assumption.
  now apply check_and_insert_absent.
Qed.

(** X14. A record number that is the normalised key of some row is never
    inserted again: whatever the names and the supplied identifiers, the
    call sends the export only, draws no identifier, and ends with the
    duplicate warning, the conflict error, or the [AttributeError] of a
    stored name that is not text. *)
Theorem known_mrn_is_never_inserted r fuel mrn fn ln uid ug nda w o w' :
  In r table ->
  mrn_key r = Some mrn ->
  add_patient self fuel mrn fn ln uid ug nda w = (o, w') ->
  calls w' = calls w ++ [full_export] /\
  drawn w' = drawn w /\
  ((o = Returned None /\ warned w' = warned w ++ [duplicate_warning mrn]) \/
   (o = Raised (conflict_error mrn) /\ warned w' = warned w) \/
   (exists e, o = Raised e /\ exc_type e = AttributeError /\ warned w' = warned w)).
Proof.
  intros Hr Hkey.
  rewrite (add_patient_indexed self db table ix) by assumption.
  intros Hrun. apply check_and_insert_paths in Hrun
    as [(p_info & _ & Hcalls & Hdrawn & Hout)|(Habs & _)].
  - split; [exact Hcalls|]. split; [exact Hdrawn|].
    destruct (names_match fn ln p_info) as [e|[]] eqn:Hnames; auto.
    right. right. exists e. destruct Hout as (-> & ->). repeat split.
    revert Hnames. unfold names_match, cell_lower.
    destruct p_info.1 as [s1|z1|f1]; try (intros [= <-]; reflexivity).
    destruct (String.eqb (PyStr.lower fn) (PyStr.lower s1)); [|discriminate].
    destruct p_info.2 as [s2|z2|f2]; intros [= <-]; reflexivity.
  - destruct (index_rows_files _ _ _ _ _ indexed Hr Hkey) as [v Hv]. congruence.
Qed.

(** X15. When the import raises, [add_patient] raises the same exception
    right after sending it: no re-fetch is attempted, no warning is
    emitted, and no pair is returned. *)
Theorem import_failure_propagates fuel mrn fn ln uid ug nda w sid w1 g w2 e :
  patient_info ix !! mrn = None ->
  choose fuel random_short_id (ucsf_ids ix) uid (logged full_export w) = (Returned sid, w1) ->
  choose fuel random_guid (ucsf_guids ix) ug w1 = (Returned g, w2) ->
  import_answer db [record_phi sid mrn fn ln; record_info sid g nda] = Some e ->
  exists w',
    add_patient self fuel mrn fn ln uid ug nda w = (Raised e, w') /\
    calls w' = calls w ++ [full_export;
                           ImportRecords [record_phi sid mrn fn ln; record_info sid g nda]] /\
    warned w' = warned w.
Proof.
  intros Habs Hs Hg Himp.
  rewrite (add_patient_indexed self db table ix) by assumption.
  rewrite check_and_insert_absent by assumption.
  rewrite (insert_patient_import_fails _ _ _ _ _ _ _ _ _ _ _ _ _ _ _ Hs Hg Himp).
  destruct (choose_quiet _ _ _ _ _ _ _ random_short_id_quiet Hs) as (Hc1 & Hw1).
  destruct (choose_quiet _ _ _ _ _ _ _ random_guid_quiet Hg) as (Hc2 & Hw2).
  simpl in Hc1, Hw1. eexists. split; [reflexivity|]. simpl.
  rewrite Hc2, Hc1, Hw2, Hw1, <- app_assoc. auto.
Qed.

(** X22. The handler of the re-fetch is [except Exception]: an exception
    outside that class (a [KeyboardInterrupt], a [SystemExit]) raised
    during the re-fetch leaves [add_patient] as it is, after the import has
    been sent; no warning is emitted and the pair is not returned. *)
Theorem refetch_interrupt_is_not_caught fuel mrn fn ln uid ug nda w sid w1 g w2 e :
  patient_info ix !! mrn = None ->
  choose fuel random_short_id (ucsf_ids ix) uid (logged full_export w) = (Returned sid, w1) ->
  choose fuel random_guid (ucsf_guids ix) ug w1 = (Returned g, w2) ->
  import_answer db [record_phi sid mrn fn ln; record_info sid g nda] = None ->
  refetch_answer db [sid] = Some e ->
  isinstance_Exception e = false ->
  exists w',
    add_patient self fuel mrn fn ln uid ug nda w = (Raised e, w') /\
    calls w' = calls w ++ [full_export;
                           ImportRecords [record_phi sid mrn fn ln; record_info sid g nda];
                           ExportRecords [sid]] /\
    warned w' = warned w.
Proof.
  intros Habs Hs Hg Himp Hver He.
  rewrite (add_patient_indexed self db table ix) by assumption.
  rewrite check_and_insert_absent by assumption.
  rewrite (insert_patient_run _ _ _ _ _ _ _ _ _ _ _ _ _ _ Hs Hg Himp).
  cbv zeta. rewrite Hver, He.
  destruct (choose_quiet _ _ _ _ _ _ _ random_short_id_quiet Hs) as (Hc1 & Hw1).
  destruct (choose_quiet _ _ _ _ _ _ _ random_guid_quiet Hg) as (Hc2 & Hw2).
  simpl in Hc1, Hw1. eexists. split; [reflexivity|]. simpl.
  rewrite Hc2, Hc1, Hw2, Hw1, <- !app_assoc. auto.
Qed.

End Indexed.

(** ** The allocation loops inside [add_patient] *)

Section Exhaustion.
Variable gen : M string.
Variable candidate : world -> string.
Variable step : nat.
Variable existing : gset string.
Hypothesis gen_eq : forall w, gen w = (Returned (candidate w), skip step w).

(** If every candidate the entropy yields is taken, the loop uses up any
    fuel it is given. *)
Lemma while_in_exhausts fuel : forall w,
  (forall j, candidate (skip (j * step) w) ∈ existing) ->
  while_in fuel gen existing (candidate w) (skip step w)
  = (OutOfFuel, skip (S fuel * step) w).
Proof.
  induction fuel as [|fuel IH]; intros w Htaken.
  - pose proof (Htaken 0%nat) as H0. simpl in H0. rewrite skip_0 in H0.
    simpl. destruct (decide (candidate w ∈ existing)) as [_|Hno]; [|contradiction].
    now rewrite Nat.add_0_r.
  - pose proof (Htaken 0%nat) as H0. simpl in H0. rewrite skip_0 in H0.
    simpl. destruct (decide (candidate w ∈ existing)) as [_|Hno]; [|contradiction].
    rewrite (bind_returned _ _ _ _ _ (gen_eq (skip step w))).
    rewrite (IH (skip step w)).
    + rewrite skip_skip. f_equal. f_equal. simpl. lia.
    + intros j. rewrite skip_skip.
      replace (j * step + step)%nat with (S j * step)%nat by lia. apply Htaken.
Qed.

Lemma allocate_exhausts fuel w :
  (forall j, candidate (skip (j * step) w) ∈ existing) ->
  allocate fuel gen existing w = (OutOfFuel, skip (S fuel * step) w).
Proof.
  intros Htaken. unfold allocate. rewrite (bind_returned _ _ _ _ _ (gen_eq w)).
  now apply while_in_exhausts.
Qed.
End Exhaustion.

Section Allocating.
Variable self : HumanNeuroRedcap.
Variable db : Project.
Variable table : list row.
Variable ix : index.
Hypothesis connected : database self = Some db.
Hypothesis exported : export_answer db = inr table.
Hypothesis indexed : index_rows table empty_index = inr ix.

(** X16. The loops return the first free candidate.  If the first [n] short
    IDs generated are taken and the next is free, and then the first [m]
    GUIDs generated are taken and the next is free, a call that supplies no
    identifier imports and returns exactly that short ID and that GUID,
    provided [n] and [m] iterations are allowed. *)
Theorem add_patient_returns_the_first_free_candidates fuel mrn fn ln nda w n m :
  let w0 := logged full_export w in
  let sid := short_candidate (skip (n * 4) w0) in
  let w1 := skip (S n * 4) w0 in
  let g := guid_candidate (skip (m * 1) w1) in
  patient_info ix !! mrn = None ->
  (n <= fuel)%nat -> (m <= fuel)%nat ->
  (forall j, (j < n)%nat -> short_candidate (skip (j * 4) w0) ∈ ucsf_ids ix) ->
  sid ∉ ucsf_ids ix ->
  (forall j, (j < m)%nat -> guid_candidate (skip (j * 1) w1) ∈ ucsf_guids ix) ->
  g ∉ ucsf_guids ix ->
  import_answer db [record_phi sid mrn fn ln; record_info sid g nda] = None ->
  (forall e, refetch_answer db [sid] = Some e -> isinstance_Exception e = true) ->
  exists w',
    add_patient self fuel mrn fn ln None None nda w = (Returned (Some (sid, g)), w') /\
    calls w' = calls w ++ [full_export;
                           ImportRecords [record_phi sid mrn fn ln; record_info sid g nda];
                           ExportRecords [sid]].
Proof.
  intros w0 sid w1 g Habs Hn Hm Htaken Hfree Htaken' Hfree' Himp Hver.
  assert (Hs : choose fuel random_short_id (ucsf_ids ix) None w0 = (Returned sid, w1))
    by (now apply allocate_short_id_terminates).
  assert (Hg : choose fuel random_guid (ucsf_guids ix) None w1
               = (Returned g, skip (S m * 1) w1))
    by (now apply allocate_guid_terminates).
  rewrite (add_patient_run self db table ix connected exported indexed
             fuel mrn fn ln None None nda w sid w1 g (skip (S m * 1) w1))
    by assumption.
  cbv zeta.
  destruct (refetch_answer db [sid]) as [e|] eqn:Href.
  - rewrite (Hver e eq_refl). eexists. split; [reflexivity|]. simpl.
    now rewrite <- !app_assoc.
  - eexists. split; [reflexivity|]. simpl. now rewrite <- !app_assoc.
Qed.

(** X17. The loop has no other exit: if every short ID the entropy yields
    is already taken, a call that supplies no short ID is still drawing
    after any number of iterations, having sent the export only. *)
Theorem add_patient_keeps_drawing_while_candidates_are_taken fuel mrn fn ln ug nda w :
  patient_info ix !! mrn = None ->
  (forall j, short_candidate (skip (j * 4) (logged full_export w)) ∈ ucsf_ids ix) ->
  add_patient self fuel mrn fn ln None ug nda w
  = (OutOfFuel, skip (S fuel * 4) (logged full_export w)).
Proof.
  intros Habs Htaken.
  rewrite (add_patient_indexed self db table ix) by assumption.
  rewrite check_and_insert_absent by assumption.
  unfold insert_patient. unfold mbind at 1, M_bind at 1. simpl.
  now rewrite (allocate_exhausts random_short_id short_candidate 4 _ random_short_id_eq).
Qed.

(** X18. The stored names are compared first name first, and only text has
    [lower]: a stored first name that is not text makes the call raise
    [AttributeError]; a stored first name that differs up to case makes it
    raise the conflict error without looking at the stored last name; a
    stored last name that is not text raises [AttributeError] only when the
    first names agree.  The names, given and stored, are ASCII where they
    are text, so that [PyStr.lower] is [str.lower] on them. *)
Theorem stored_names_are_compared_in_order fuel mrn fn ln uid ug nda w c1 c2 :
  patient_info ix !! mrn = Some (c1, c2) ->
  PyStr.isascii fn = true -> PyStr.isascii ln = true ->
  name_in_domain c1 = true -> name_in_domain c2 = true ->
  exists o w',
    add_patient self fuel mrn fn ln uid ug nda w = (o, w') /\
    calls w' = calls w ++ [full_export] /\
    match c1 with
    | CStr stored_first =>
        if String.eqb (PyStr.lower fn) (PyStr.lower stored_first)
        then match c2 with
             | CStr stored_last =>
                 if String.eqb (PyStr.lower ln) (PyStr.lower stored_last)
                 then o = Returned None
                 else o = Raised (conflict_error mrn)
             | _ => exists e, o = Raised e /\ exc_type e = AttributeError
             end
        else o = Raised (conflict_error mrn)
    | _ => exists e, o = Raised e /\ exc_type e = AttributeError
    end.
Proof.
  intros Hstored _ _ _ _.
  rewrite (add_patient_indexed self db table ix) by assumption.
  unfold check_and_insert. rewrite Hstored.
  unfold names_match, cell_lower, mbind, M_bind, lift, raise, warn. simpl.
  destruct c1 as [s1|z1|f1]; simpl; [|eauto 8..].
  destruct (String.eqb (PyStr.lower fn) (PyStr.lower s1)); simpl; [|eauto 8].
  destruct c2 as [s2|z2|f2]; simpl; [|eauto 8..].
  destruct (String.eqb (PyStr.lower ln) (PyStr.lower s2)); simpl; eauto 8.
Qed.

End Allocating.

(** ** Reading back what the zero-padded format writes *)

Lemma digit_char_decimal d :
  (d < 10)%N ->
  PyStr.is_digit (PyInt.digit_char d) = true /\ PyInt.digit_val (PyInt.digit_char d) = d.
Proof.
  intros Hd.
  assert (H : forallb (fun j => PyStr.is_digit (PyInt.digit_char (N.of_nat j))
                                && (PyInt.digit_val (PyInt.digit_char (N.of_nat j))
                                    =? N.of_nat j)%N) (seq 0 10) = true) by reflexivity.
  apply (forallb_below _ 10 (N.to_nat d)) in H; [|lia].
  cbv beta in H. rewrite N2Nat.id in H. apply andb_prop in H as (H1 & H2).
  split; [exact H1|now apply N.eqb_eq].
Qed.

Lemma digits_are_decimal n : forallb PyStr.is_digit (PyInt.digits 10 n) = true.
Proof.
  apply forallb_forall. intros c Hc.
  pose proof (render_Forall 10 ltac:(lia) (fun c => PyStr.is_digit c = true)
                (S (N.to_nat (N.log2 n))) n []
                (fun d Hd => proj1 (digit_char_decimal d Hd)) ltac:(constructor)) as Hr.
  rewrite List.Forall_forall in Hr. now apply Hr.
Qed.

Lemma digits_not_empty base n : PyInt.digits base n <> [].
Proof.
  unfold PyInt.digits. simpl. destruct (n / base =? 0)%N; [discriminate|].
  rewrite render_app. intros H. apply app_eq_nil in H as (_ & H). discriminate.
Qed.

Lemma decimal_value_digits n : decimal_value (PyInt.digits 10 n) = n.
Proof.
  induction n as [n IH] using (well_founded_induction N.lt_wf_0).
  destruct (N.lt_ge_cases n 10) as [Hsmall|Hbig].
  - rewrite digits_small by assumption. unfold decimal_value. simpl.
    now rewrite (proj2 (digit_char_decimal n Hsmall)).
  - pose proof (N.Div0.div_mod n 10) as Hdiv.
    assert (Hq : (0 < n / 10)%N) by (apply N.div_str_pos; lia).
    assert (Hr : (n mod 10 < 10)%N) by (apply N.mod_upper_bound; lia).
    rewrite Hdiv at 1.
    rewrite (digits_step 10 ltac:(lia) _ _ Hq Hr), decimal_value_snoc.
    rewrite IH by (apply N.div_lt; lia).
    rewrite (proj2 (digit_char_decimal _ Hr)). lia.
Qed.

Lemma decimal_value_zeros k l : decimal_value (PyInt.zeros k ++ l) = decimal_value l.
Proof.
  unfold decimal_value. rewrite fold_left_app. f_equal.
  induction k as [|k IH]; [reflexivity|]. simpl. exact IH.
Qed.

Lemma zeros_are_decimal k : forallb PyStr.is_digit (PyInt.zeros k) = true.
Proof. induction k as [|k IH]; [reflexivity|]. simpl. exact IH. Qed.

Lemma magnitude_digits l :
  l <> [] -> forallb PyStr.is_digit l = true -> (length l <= PyInt.max_str_digits)%nat ->
  PyInt.magnitude l = Some (decimal_value l).
Proof.
  intros Hne Hall Hlen. unfold PyInt.magnitude.
  assert (Hcount : (length (filter (fun c => Is_true (PyStr.is_digit c)) l)
                    <= PyInt.max_str_digits)%nat)
    by (etransitivity; [apply length_filter|exact Hlen]).
  apply Nat.ltb_ge in Hcount. rewrite Hcount.
  now apply parse_digits_value; [|left].
Qed.

(** X19. Reading back what the zero-padded format writes gives the number
    again: [int(f"{z:0{w}d}") == z] for every integer [z] and width [w]
    whose text stays within the interpreter's limit on digits.  So a key
    of the patient map, exported as text, is filed under itself. *)
Theorem of_str_reads_back_format_0d w z :
  (String.length (PyInt.format_0d w z) <= PyInt.max_str_digits)%nat ->
  PyInt.of_str (PyInt.format_0d w z) = Some z.
Proof.
  unfold PyInt.format_0d. rewrite length_of_chars.
  set (ds := PyInt.digits 10 (Z.abs_N z)).
  assert (Hds : forallb PyStr.is_digit ds = true) by apply digits_are_decimal.
  assert (Hne : ds <> []) by apply digits_not_empty.
  assert (Hval : decimal_value ds = Z.abs_N z) by apply decimal_value_digits.
  destruct (Z.ltb_spec z 0) as [Hneg|Hpos].
  - set (body := PyInt.zeros (w - length ["-"%char] - length ds) ++ ds).
    intros Hlen. unfold PyInt.of_str. rewrite chars_of_chars.
    assert (Hbody : forallb PyStr.is_digit body = true)
      by (unfold body; rewrite forallb_app, zeros_are_decimal, Hds; reflexivity).
    assert (Hbne : body <> [])
      by (unfold body; intros H; apply app_eq_nil in H as (_ & H); contradiction).
    assert (Hstrip : PyStr.strip (["-"%char] ++ body) = "-"%char :: body).
    { unfold PyStr.strip. simpl PyStr.lstrip at 2.
      change (rev (["-"%char] ++ body)) with (rev ("-"%char :: body)).
      assert (Hl : PyStr.lstrip (rev ("-"%char :: body)) = rev ("-"%char :: body)).
      { simpl rev. destruct (rev body) as [|c l] eqn:Hrev.
        - apply (f_equal (@rev ascii)) in Hrev. rewrite rev_involutive in Hrev. contradiction.
        - simpl. assert (Hc : PyStr.is_digit c = true).
          { rewrite forallb_forall in Hbody. apply Hbody, in_rev. rewrite Hrev. now left. }
          now destruct (digit_not_blank_or_sign c Hc) as (-> & _). }
      rewrite Hl. apply rev_involutive. }
    rewrite Hstrip. simpl.
    rewrite magnitude_digits; [|exact Hbne|exact Hbody|simpl in Hlen; lia].
    unfold body. rewrite decimal_value_zeros, Hval. simpl. f_equal. lia.
  - set (body := PyInt.zeros (w - length (@nil ascii) - length ds) ++ ds).
    intros Hlen. simpl in Hlen. unfold PyInt.of_str. rewrite chars_of_chars.
    change ([] ++ body) with body.
    assert (Hbody : forallb PyStr.is_digit body = true)
      by (unfold body; rewrite forallb_app, zeros_are_decimal, Hds; reflexivity).
    assert (Hbne : body <> [])
      by (unfold body; intros H; apply app_eq_nil in H as (_ & H); contradiction).
    rewrite (strip_digits body Hbody).
    destruct body as [|c l] eqn:Ebody; [contradiction|]. rewrite <- Ebody in *.
    assert (Hc : PyStr.is_digit c = true).
    { rewrite Ebody in Hbody. simpl in Hbody. now apply andb_prop in Hbody as (Hc & _). }
    destruct (digit_not_blank_or_sign c Hc) as (_ & -> & ->).
    rewrite magnitude_digits; [|rewrite Ebody; discriminate|exact Hbody|exact Hlen].
    subst body. rewrite decimal_value_zeros, Hval. simpl. f_equal. lia.
Qed.

(** ** Identifiers that are numbers, identifiers that can be drawn *)

Lemma id_key_numeric w c z :
  is_str c = false -> py_int c = inr z -> id_key w c = Some (PyInt.format_0d w z).
Proof.
  destruct c as [s|z'|[sg|sg| |sg m e]]; simpl; try discriminate;
    intros _ [= <-]; reflexivity.
Qed.

(** X20. A short ID made of four digits that the export returns as a number
    (12 for 0012) is still recognised as taken: the zero padding restores
    it in the set of existing short IDs, and [add_patient] never allocates
    it. *)
Theorem numeric_short_id_is_recognised self db table ix r s z
    fuel mrn fn ln ug nda w sid g w' :
  database self = Some db ->
  export_answer db = inr table ->
  index_rows table empty_index = inr ix ->
  In r table ->
  is_str (row_ucsf_id r) = false ->
  py_int (row_ucsf_id r) = inr z ->
  String.length s = 4%nat -> all_digits s = true -> PyInt.of_str s = Some z ->
  s ∈ ucsf_ids ix /\
  (add_patient self fuel mrn fn ln None ug nda w = (Returned (Some (sid, g)), w') ->
   sid <> s).
Proof.
  intros Hdb Hexp Hix Hr Hnum Hint Hlen Hall Hread.
  assert (Hin : s ∈ ucsf_ids ix).
  { destruct (index_rows_ids _ _ _ Hix) as (Hids & _). apply Hids. right.
    exists r. split; [exact Hr|].
    rewrite (id_key_numeric 4 _ z Hnum Hint). f_equal.
    destruct (format_0d_of_str_digits 4 s Hlen) as (Hread' & Hfmt); [|exact Hall|].
    - unfold PyInt.max_str_digits. lia.
    - rewrite Hread in Hread'. injection Hread' as ->. exact Hfmt. }
  split; [exact Hin|].
  intros Hrun ->.
  apply add_patient_returned in Hrun as (db' & table' & ix' & Hdb' & Hexp' & Hix' & _ & Hins).
  assert (db' = db) as -> by congruence.
  assert (table' = table) as -> by congruence.
  assert (ix' = ix) as -> by congruence.
  apply insert_patient_returned in Hins as (sid' & g' & w1 & w2 & Hp & Hs & _).
  injection Hp as <- <-. apply choose_returned in Hs. contradiction.
Qed.

Lemma alphabet_index_spec c :
  id_char c = true ->
  PyStr.index valid_id_chars (N.to_nat (alphabet_index c mod 36)) = c.
Proof.
  destruct c as [[] [] [] [] [] [] [] []]; try discriminate; intros _; reflexivity.
Qed.

(** X21. The generator reaches the whole identifier space and checks
    nothing: for every text of four characters among A-Z and 0-9, whether
    or not it is already in use, there are draws under which
    [create_ucsf_id] returns it as the short ID. *)
Theorem every_short_id_can_be_generated self s rest calls0 warned0 :
  is_short_id s = true ->
  exists g w',
    create_ucsf_id self (World (replay (spelling s ++ rest)) 0 calls0 warned0)
    = (Returned (s, g), w').
Proof.
  intros Hs. rewrite create_ucsf_id_eq. do 2 eexists. f_equal. f_equal. f_equal.
  unfold is_short_id in Hs. apply andb_prop in Hs as (Hlen & Hchars).
  apply Nat.eqb_eq in Hlen.
  destruct s as [|c0 [|c1 [|c2 [|c3 [|c4 s]]]]]; try discriminate. clear Hlen.
  simpl in Hchars. rewrite !andb_true_iff in Hchars.
  destruct Hchars as (H0 & H1 & H2 & H3 & _).
  unfold short_candidate.
  set (w := World (replay (spelling (String c0 (String c1 (String c2 (String c3 ""))))
                           ++ rest)) 0 calls0 warned0).
  assert (E0 : candidate_char w 0 = c0) by exact (alphabet_index_spec c0 H0).
  assert (E1 : candidate_char w 1 = c1) by exact (alphabet_index_spec c1 H1).
  assert (E2 : candidate_char w 2 = c2) by exact (alphabet_index_spec c2 H2).
  assert (E3 : candidate_char w 3 = c3) by exact (alphabet_index_spec c3 H3).
  rewrite E0, E1, E2, E3. reflexivity.
Qed.

(** ** The further properties at work on the samples *)
Section Illustrations.
Import Sample Site Cases.

Ltac computed :=
  match goal with |- ?P => apply (@bool_decide_unpack P _) end; vm_compute; exact I.

(** A URL is supplied, the token comes from the default key file. *)
Lemma connect_stores_handle_or_changes_nothing_witness :
  key_file (this (connect local (Some "https://other.example.org/api/") None
                    (unconnected DEFAULT_KEY_FILE)).2)
  = DEFAULT_KEY_FILE /\
  exists db,
    fields (this (connect local (Some "https://other.example.org/api/") None
                    (unconnected DEFAULT_KEY_FILE)).2)
    = {| database := Some db |}.
Proof.
  destruct (connect_stores_handle_or_changes_nothing local
              (Some "https://other.example.org/api/") None (unconnected DEFAULT_KEY_FILE)
              (Returned tt)
              (connect local (Some "https://other.example.org/api/") None
                 (unconnected DEFAULT_KEY_FILE)).2 eq_refl)
    as (Hkey & [(u & t & db & _ & _ & Hdb & _)|((e & He) & _)]); [|discriminate].
  split; [exact Hkey|]. exists db. exact Hdb.
Defined.

Lemma connect_prefers_supplied_credentials_witness :
  exists requests,
    host_calls (connect local (Some "https://other.example.org/api/") None
                  (unconnected DEFAULT_KEY_FILE)).2
    = OpenFile DEFAULT_KEY_FILE :: requests /\
    (requests = [] \/
     exists u t,
       requests = [NewProject u t] /\
       u = TString "https://other.example.org/api/" /\
       exists c, read_toml local DEFAULT_KEY_FILE = inr c /\ c !! "token" = Some t).
Proof.
  apply (connect_prefers_supplied_credentials local
           (Some "https://other.example.org/api/") None (unconnected DEFAULT_KEY_FILE)
           (Returned tt)).
  reflexivity.
Defined.

(** The URL is supplied, yet the key file must hold it too. *)
Lemma connect_needs_both_keys_in_file_witness :
  exists key,
    (key = "url" \/ key = "token") /\
    token_only !! key = None /\
    connect local (Some "https://other.example.org/api/") None
      (unconnected (PathOf "token_only.toml"))
    = (Raised (KeyError key), opened (unconnected (PathOf "token_only.toml"))).
Proof.
  apply (connect_needs_both_keys_in_file local
           (Some "https://other.example.org/api/") None
           (unconnected (PathOf "token_only.toml")) token_only).
  - now right.
  - reflexivity.
  - now left.
Defined.

(** The configured file does not exist: the call fails, the key file has
    changed all the same. *)
Lemma construct_switches_key_file_before_connecting_witness :
  (construct local (ConfigStr "absent.toml") true (unconnected DEFAULT_KEY_FILE)).1
  = Raised no_such_file /\
  key_file (this (construct local (ConfigStr "absent.toml") true
                    (unconnected DEFAULT_KEY_FILE)).2)
  = PathOf "absent.toml" /\
  fields (this (construct local (ConfigStr "absent.toml") true
                  (unconnected DEFAULT_KEY_FILE)).2)
  = {| database := None |}.
Proof.
  destruct (construct_switches_key_file_before_connecting local (ConfigStr "absent.toml")
              (PathOf "absent.toml") (unconnected DEFAULT_KEY_FILE) (Raised no_such_file)
              (construct local (ConfigStr "absent.toml") true
                 (unconnected DEFAULT_KEY_FILE)).2 eq_refl eq_refl)
    as (Hkey & _ & Hfields).
  split; [reflexivity|]. split; [exact Hkey|]. apply Hfields. eauto.
Defined.

(** An integer passed as [config_file], with a connection requested. *)
Lemma construct_validates_before_connecting_witness :
  construct local (ConfigOther "int") true (unconnected DEFAULT_KEY_FILE)
  = (Raised (invalid_config "int"), unconnected DEFAULT_KEY_FILE) /\
  exc_msg (invalid_config "int") = "Invalid config_file type: <class 'int'>".
Proof.
  destruct (construct_validates_before_connecting local (ConfigOther "int") true
              (unconnected DEFAULT_KEY_FILE) (Raised (invalid_config "int"))
              (unconnected DEFAULT_KEY_FILE) eq_refl) as (_ & Hother & _).
  destruct (Hother "int" eq_refl) as (_ & _). split; reflexivity.
Defined.

Lemma init_with_connect_succeeds_only_from_key_file_witness :
  exists p c url token db,
    chosen_key_file (ConfigStr "lab.toml") DEFAULT_KEY_FILE = Some p /\
    read_toml local p = inr c /\
    c !! "url" = Some url /\
    c !! "token" = Some token /\
    new_project local url token = inr db /\
    this (init local (ConfigStr "lab.toml") true).2 = Instance p {| database := Some db |} /\
    host_calls (init local (ConfigStr "lab.toml") true).2 = [OpenFile p; NewProject url token].
Proof.
  apply (init_with_connect_succeeds_only_from_key_file local (ConfigStr "lab.toml")).
  reflexivity.
Defined.

Lemma add_patient_needs_a_connection_witness :
  add_patient (fields (this (init local (ConfigStr "lab.toml") false).2))
    0 "00000001" "A" "B" None None None (start colliding_draws)
  = (Raised not_connected, start colliding_draws).
Proof.
  apply (add_patient_needs_a_connection local (ConfigStr "lab.toml")
           (init local (ConfigStr "lab.toml") false).2). reflexivity.
Defined.

(** The sample table is indexed; with one unreadable record number added,
    it is not. *)
Lemma index_rows_succeeds_iff_rows_accepted_witness :
  (exists ix, index_rows table empty_index = inr ix) /\
  ~ (exists ix, index_rows [jane_phi; unreadable] empty_index = inr ix).
Proof.
  split.
  - destruct (index_rows_succeeds_iff_rows_accepted table empty_index eq_refl)
      as ((_ & Hyes) & _).
    apply Hyes. reflexivity.
  - destruct (index_rows_succeeds_iff_rows_accepted [jane_phi; unreadable] empty_index
                eq_refl) as ((Hno & _) & _).
    intros H. apply Hno in H. discriminate.
Defined.

(** The sample table: one record number, two short IDs, two GUIDs, one
    external GUID. *)
Lemma index_holds_exactly_the_rows_witness :
  is_Some (patient_info (index_of table) !! "00001234") /\
  ("AB12" ∈ ucsf_ids (index_of table)) /\
  ("00000000000040008000000000000007" ∈ ucsf_guids (index_of table)) /\
  ("NDAR_INV0001" ∈ nda_guids (index_of table)).
Proof.
  destruct (index_holds_exactly_the_rows table (index_of table) eq_refl)
    as (Hkeys & Hids & Hguids & Hndas).
  split; [|split; [|split]].
  - apply Hkeys. exists jane_phi. split; [now left|reflexivity].
  - apply Hids. exists jane_demographics. split; [right; now left|reflexivity].
  - apply Hguids. exists other_demographics. split; [right; right; now left|reflexivity].
  - apply Hndas. exists jane_demographics. split; [right; now left|reflexivity].
Defined.

(** Record number 1234 appears twice; the later row names Jane Roe. *)
Lemma last_row_of_a_record_number_wins_witness :
  patient_info (index_of [jane_phi; jane_renamed; other_demographics]) !! "00001234"
  = Some (CStr "Jane", CStr "Roe").
Proof.
  apply (last_row_of_a_record_number_wins [jane_phi] jane_renamed [other_demographics]
           (index_of [jane_phi; jane_renamed; other_demographics]) "00001234").
  - reflexivity.
  - reflexivity.
  - intros r' [<-|[]]. discriminate.
Defined.

(** A run that completes: the three requests in order, no warning. *)
Lemma add_patient_follows_the_protocol_witness :
  exists sent,
    calls (add_patient (connected_to (accepting table)) 2 "00000001" "A" "B"
             None None None (start colliding_draws)).2
    = sent /\
    protocol "00000001" "A" "B" None
      (Returned (Some ("EF56", "ffffffffffff4fffbfffffffffffffff"))) sent.
Proof.
  destruct (add_patient_follows_the_protocol (connected_to (accepting table)) 2
              "00000001" "A" "B" None None None (start colliding_draws)
              (Returned (Some ("EF56", "ffffffffffff4fffbfffffffffffffff")))
              (add_patient (connected_to (accepting table)) 2 "00000001" "A" "B"
                 None None None (start colliding_draws)).2 eq_refl)
    as (sent & Hcalls & Hprotocol & _).
  exists sent. split; [exact Hcalls|exact Hprotocol].
Defined.

(** One unreadable record number in the export. *)
Lemma add_patient_blocked_by_a_rejected_row_witness :
  exists e,
    add_patient (connected_to (accepting [jane_phi; unreadable])) 0 "00000001" "A" "B"
      None None None (start colliding_draws)
    = (Raised e, logged full_export (start colliding_draws)) /\
    (exc_type e = ValueError \/ exc_type e = OverflowError).
Proof.
  apply (add_patient_blocked_by_a_rejected_row
           (connected_to (accepting [jane_phi; unreadable]))
           (accepting [jane_phi; unreadable]) [jane_phi; unreadable] unreadable).
  - reflexivity.
  - reflexivity.
  - right. now left.
  - reflexivity.
  - reflexivity.
Defined.

Lemma short_mrn_is_never_a_duplicate_witness :
  patient_info (index_of table) !! "1234" = None /\
  add_patient (connected_to (accepting table)) 2 "1234" "Jane" "Doe" None None None
    (start colliding_draws)
  = insert_patient (accepting table) 2 (index_of table) "1234" "Jane" "Doe" None None None
      (logged full_export (start colliding_draws)).
Proof.
  apply (short_mrn_is_never_a_duplicate (connected_to (accepting table)) (accepting table)
           table (index_of table) eq_refl eq_refl eq_refl).
  simpl. lia.
Defined.

(** Jane Doe again, with identifiers supplied: nothing is inserted. *)
Lemma known_mrn_is_never_inserted_witness :
  calls (add_patient (connected_to (accepting table)) 2 "00001234" "Jane" "Doe"
           (Some "ZZ99") None None (start colliding_draws)).2
  = [full_export] /\
  drawn (add_patient (connected_to (accepting table)) 2 "00001234" "Jane" "Doe"
           (Some "ZZ99") None None (start colliding_draws)).2
  = 0%nat.
Proof.
  destruct (known_mrn_is_never_inserted (connected_to (accepting table)) (accepting table)
              table (index_of table) eq_refl eq_refl eq_refl jane_phi
              2 "00001234" "Jane" "Doe" (Some "ZZ99") None None (start colliding_draws)
              (Returned None)
              (add_patient (connected_to (accepting table)) 2 "00001234" "Jane" "Doe"
                 (Some "ZZ99") None None (start colliding_draws)).2)
    as (Hcalls & Hdrawn & _).
  - now left.
  - reflexivity.
  - reflexivity.
  - split; [exact Hcalls|exact Hdrawn].
Defined.

Lemma import_failure_propagates_witness :
  exists w',
    add_patient (connected_to (refusing table forbidden)) 2 "00000001" "A" "B"
      None None None (start colliding_draws)
    = (Raised forbidden, w') /\
    calls w'
    = [full_export;
             ImportRecords [record_phi "EF56" "00000001" "A" "B";
                            record_info "EF56" "ffffffffffff4fffbfffffffffffffff" None]] /\
    warned w' = [].
Proof.
  apply (import_failure_propagates (connected_to (refusing table forbidden))
           (refusing table forbidden) table (index_of table) eq_refl eq_refl eq_refl
           2 "00000001" "A" "B" None None None (start colliding_draws)
           "EF56" (skip 12 (logged full_export (start colliding_draws)))
           "ffffffffffff4fffbfffffffffffffff"
           (skip 14 (logged full_export (start colliding_draws)))); reflexivity.
Defined.

(** Two short IDs and one GUID are rejected before the free ones come. *)
Lemma add_patient_returns_the_first_free_candidates_witness :
  exists w',
    add_patient (connected_to (accepting table)) 2 "00000001" "A" "B" None None None
      (start colliding_draws)
    = (Returned (Some ("EF56", "ffffffffffff4fffbfffffffffffffff")), w') /\
    calls w'
    = [full_export;
       ImportRecords [record_phi "EF56" "00000001" "A" "B";
                      record_info "EF56" "ffffffffffff4fffbfffffffffffffff" None];
       ExportRecords ["EF56"]].
Proof.
  destruct (add_patient_returns_the_first_free_candidates
              (connected_to (accepting table)) (accepting table) table (index_of table)
              eq_refl eq_refl eq_refl 2 "00000001" "A" "B" None (start colliding_draws) 2 1)
    as (w' & Hrun & Hcalls).
  - reflexivity.
  - lia.
  - lia.
  - intros [|[|j]] Hj; [computed|computed|lia].
  - computed.
  - intros [|j] Hj; [computed|lia].
  - computed.
  - reflexivity.
  - discriminate.
  - exists w'. split; [exact Hrun|exact Hcalls].
Defined.

(** AAAA is taken and the entropy yields nothing else: after 100 iterations
    the call is still drawing. *)
Lemma add_patient_keeps_drawing_while_candidates_are_taken_witness :
  add_patient (connected_to (accepting [holds_AAAA])) 100 "00000001" "A" "B"
    None None None stuck
  = (OutOfFuel, skip 404 (logged full_export stuck)).
Proof.
  apply (add_patient_keeps_drawing_while_candidates_are_taken
           (connected_to (accepting [holds_AAAA])) (accepting [holds_AAAA]) [holds_AAAA]
           (index_of [holds_AAAA]) eq_refl eq_refl eq_refl
           100 "00000001" "A" "B" None None stuck).
  - reflexivity.
  - intros j. computed.
Defined.

(** Record number 77 is on file without names. *)
Lemma stored_names_are_compared_in_order_witness :
  exists o w',
    add_patient (connected_to (accepting [nameless])) 0 "00000077" "A" "B"
      None None None (start colliding_draws) = (o, w') /\
    calls w' = [full_export] /\
    exists e, o = Raised e /\ exc_type e = AttributeError.
Proof.
  apply (stored_names_are_compared_in_order
           (connected_to (accepting [nameless])) (accepting [nameless]) [nameless]
           (index_of [nameless]) eq_refl eq_refl eq_refl
           0 "00000077" "A" "B" None None None (start colliding_draws) NaN NaN);
    reflexivity.
Defined.

Lemma of_str_reads_back_format_0d_witness :
  PyInt.of_str (PyInt.format_0d 8 (-1234)) = Some (-1234)%Z.
Proof.
  apply (of_str_reads_back_format_0d 8 (-1234)). apply Nat.leb_le. vm_compute. reflexivity.
Defined.

(** The export holds the number 12 as a short ID; the draws spell 0012
    first, then AB12. *)
Lemma numeric_short_id_is_recognised_witness :
  ("0012" ∈ ucsf_ids (index_of [numeric_id])) /\
  (add_patient (connected_to (accepting [numeric_id])) 1 "00000001" "A" "B"
     None None None (start (spelling "0012" ++ colliding_draws))).1
  = Returned (Some ("AB12", "00000000000040008000000000000002")) /\
  "AB12" <> "0012".
Proof.
  destruct (numeric_short_id_is_recognised
              (connected_to (accepting [numeric_id])) (accepting [numeric_id]) [numeric_id]
              (index_of [numeric_id]) numeric_id "0012" 12
              1 "00000001" "A" "B" None None
              (start (spelling "0012" ++ colliding_draws))
              "AB12" "00000000000040008000000000000002"
              (add_patient (connected_to (accepting [numeric_id])) 1 "00000001" "A" "B"
                 None None None (start (spelling "0012" ++ colliding_draws))).2)
    as (Hin & Hnever); try reflexivity.
  - now left.
  - split; [exact Hin|]. split; [reflexivity|]. apply Hnever. reflexivity.
Defined.

(** AB12 is on file in the sample table; the generator returns it all the
    same. *)
Lemma every_short_id_can_be_generated_witness :
  ("AB12" ∈ ucsf_ids (index_of table)) /\
  exists g w',
    create_ucsf_id (connected_to (accepting table))
      (World (replay (spelling "AB12" ++ [7%N])) 0 [] [])
    = (Returned ("AB12", g), w').
Proof.
  split; [computed|].
  apply (every_short_id_can_be_generated (connected_to (accepting table)) "AB12" [7%N] [] []).
  reflexivity.
Defined.

(** Control-C during the re-fetch: the import has been sent, the call
    raises. *)
Lemma refetch_interrupt_is_not_caught_witness :
  exists w',
    add_patient (connected_to (unverifiable table interrupt)) 2 "00000001" "A" "B"
      None None None (start colliding_draws)
    = (Raised interrupt, w') /\
    calls w'
    = [full_export;
       ImportRecords [record_phi "EF56" "00000001" "A" "B";
                      record_info "EF56" "ffffffffffff4fffbfffffffffffffff" None];
       ExportRecords ["EF56"]] /\
    warned w' = [].
Proof.
  apply (refetch_interrupt_is_not_caught (connected_to (unverifiable table interrupt))
           (unverifiable table interrupt) table (index_of table) eq_refl eq_refl eq_refl
           2 "00000001" "A" "B" None None None (start colliding_draws)
           "EF56" (skip 12 (logged full_export (start colliding_draws)))
           "ffffffffffff4fffbfffffffffffffff"
           (skip 14 (logged full_export (start colliding_draws)))); reflexivity.
Defined.

End Illustrations.
